(** * examples/datasets/dataset_origin_example.py

    A shallow embedding of the dataset/origin demonstration script, with the
    properties of its specification.

    The script is sequential glue over an HTTP service.  Its effects are
    modelled by explicit state passing over a [world] (process environment,
    files, standard output, the log of HTTP calls and the state of the remote
    service) in a small state-and-exception monad; Python values coming back
    from [resp.json()] are modelled by the inductive type [pyval]; the
    encoding of standard output, which decides whether a [print] succeeds,
    is a [stream]. *)

From Stdlib Require Import String Ascii ZArith List Bool Lia.
From Stdlib Require Import SpecFloat.
From stdpp Require Import base gmap strings.

Set Warnings "-register-all".

Local Open Scope Z_scope.

(** ** Python values *)

(** What [json.loads] can return, which is also what the script stores in
    its local variables.  A [str] is kept as its UTF-8 bytes, a lone
    surrogate (which JSON can carry as an escape) in the three bytes the
    same scheme would give it; a [dict] keeps its insertion order, as Python
    dicts do. *)
Inductive pyval : Type :=
| PNone
| PBool (b : bool)
| PInt (n : Z)
| PFloat (f : spec_float)
| PStr (s : string)
| PList (l : list pyval)
| PDict (d : list (string * pyval)).

Definition float_is_zero (f : spec_float) : bool :=
  match f with
  | S754_zero _ => true
  | _ => false
  end.

(** Python truth value testing ([bool(v)]). *)
Definition truthy (v : pyval) : bool :=
  match v with
  | PNone => false
  | PBool b => b
  | PInt n => negb (n =? 0)
  | PFloat f => negb (float_is_zero f)
  | PStr s => match s with EmptyString => false | String _ _ => true end
  | PList l => match l with [] => false | _ :: _ => true end
  | PDict d => match d with [] => false | _ :: _ => true end
  end.

(** ** Operations on Python values used by the script *)

Inductive exn : Type :=
| KeyError (key : string)
| TypeError
| AttributeError
| RequestException
| JSONDecodeError
| UnicodeEncodeError.

Inductive result (A : Type) : Type :=
| Ok (a : A)
| Raise (e : exn).
Arguments Ok {A} a.
Arguments Raise {A} e.

Fixpoint dict_lookup (k : string) (d : list (string * pyval)) : option pyval :=
  match d with
  | [] => None
  | (k', v) :: d' => if String.eqb k k' then Some v else dict_lookup k d'
  end.

(** [v[k]] for a string key [k]. *)
Definition getitem (v : pyval) (k : string) : result pyval :=
  match v with
  | PDict d => match dict_lookup k d with
               | Some x => Ok x
               | None => Raise (KeyError k)
               end
  | _ => Raise TypeError
  end.

(** [v.get(k)]: only a dict has the method; a missing key reads as [None]. *)
Definition py_get (v : pyval) (k : string) : result pyval :=
  match v with
  | PDict d => Ok (match dict_lookup k d with Some x => x | None => PNone end)
  | _ => Raise AttributeError
  end.

(** A byte [10xxxxxx] continues a UTF-8 encoded code point. *)
Definition is_continuation (c : ascii) : bool :=
  match c with
  | Ascii _ _ _ _ _ _ b6 b7 => b7 && negb b6
  end.

(** Number of code points of a [str]. *)
Fixpoint utf8_len (s : string) : nat :=
  match s with
  | EmptyString => 0%nat
  | String c s' => ((if is_continuation c then 0 else 1) + utf8_len s')%nat
  end.

(** The code points of a [str], each as a one-character [str]. *)
Fixpoint utf8_chars (s : string) : list string :=
  match s with
  | EmptyString => []
  | String c s' =>
      match s' with
      | EmptyString => [String c EmptyString]
      | String c' _ =>
          if is_continuation c' then
            match utf8_chars s' with
            | ch :: rest => String c ch :: rest
            | [] => [String c EmptyString]
            end
          else String c EmptyString :: utf8_chars s'
      end
  end.

(** [len(v)] *)
Definition py_len (v : pyval) : result pyval :=
  match v with
  | PList l => Ok (PInt (Z.of_nat (length l)))
  | PDict d => Ok (PInt (Z.of_nat (length d)))
  | PStr s => Ok (PInt (Z.of_nat (utf8_len s)))
  | _ => Raise TypeError
  end.

(** The items [for ... in v] goes through: the elements of a list, the keys
    of a dict, the characters of a str. *)
Definition py_iter (v : pyval) : result (list pyval) :=
  match v with
  | PList l => Ok l
  | PDict d => Ok (map (fun kv => PStr (fst kv)) d)
  | PStr s => Ok (map PStr (utf8_chars s))
  | _ => Raise TypeError
  end.

(** ** Formatted strings *)

(** An f-string is kept as its parts: literal text and interpolated values.
    The text it denotes is the concatenation of the literals with [str(v)]
    in place of each value [v]. *)
Inductive fpart : Type :=
| FLit (s : string)
| FVal (v : pyval).

Definition fstring : Type := list fpart.

Definition nl : string := String (ascii_of_nat 10) EmptyString.
Definition dq : string := String (ascii_of_nat 34) EmptyString.

(** [s * n] *)
Fixpoint str_repeat (s : string) (n : nat) : string :=
  match n with
  | O => EmptyString
  | S n' => s +:+ str_repeat s n'
  end.

(** ** The encoding of standard output *)

(** All bytes below 128. *)
Fixpoint is_ascii (s : string) : bool :=
  match s with
  | EmptyString => true
  | String (Ascii _ _ _ _ _ _ _ b7) s' => negb b7 && is_ascii s'
  end.

(** What [print] needs to know of [sys.stdout]: which text a write to it
    accepts, by its encoding and error handler (what the strict handler
    cannot encode raises [UnicodeEncodeError]; a handler that replaces
    accepts everything).  ASCII text is always accepted.  The characters of
    the script's own text that are not ASCII are the keycap sequences of the
    step banners, the check marks and the emoji of the explanation; [wide]
    says that the stream takes them, as UTF-8 does and ASCII or Latin-1 do
    not (the first banner already needs the variation selector U+FE0F, which
    among Python's codecs only those that cover all of Unicode have).
    [encodes v] says that the text [str(v)] of a str, list or dict [v]
    received from the service is accepted. *)
Record stream : Type := {
  wide : bool;
  encodes : pyval -> bool
}.

(** The text of [None], of a boolean and of a number is ASCII. *)
Definition writes (enc : stream) (v : pyval) : bool :=
  match v with
  | PStr _ | PList _ | PDict _ => encodes enc v
  | _ => true
  end.

Definition part_ok (enc : stream) (p : fpart) : bool :=
  match p with
  | FLit s => wide enc || is_ascii s
  | FVal v => writes enc v
  end.

(** The whole text of a [print] is encoded at once. *)
Definition printable (enc : stream) (line : fstring) : bool :=
  forallb (part_ok enc) line.

(** The second byte of a surrogate in three-byte form: [101xxxxx]. *)
Definition surrogate_second (c : ascii) : bool :=
  match c with
  | Ascii _ _ _ _ _ b5 b6 b7 => b7 && negb b6 && b5
  end.

(** A surrogate: the byte 237 followed by a byte from 160 on, which
    well-formed UTF-8 never has. *)
Fixpoint has_surrogate (s : string) : bool :=
  match s with
  | EmptyString => false
  | String c s' =>
      match s' with
      | EmptyString => false
      | String c' _ =>
          (Ascii.eqb c (ascii_of_nat 237) && surrogate_second c')
          || has_surrogate s'
      end
  end.

(** Standard output in UTF-8 with the strict handler, Python's default on
    a UTF-8 locale: every character can be encoded but a surrogate; inside a
    list or a dict, [repr] escapes surrogates, so only a str printed as such
    can fail. *)
Definition utf8_stdout : stream :=
  {| wide := true;
     encodes := fun v =>
       match v with
       | PStr s => negb (has_surrogate s)
       | _ => true
       end |}.

(** Standard output in ASCII ([PYTHONIOENCODING=ascii]): none of the
    characters of the banners, and of a str the ASCII ones.  What [repr]
    leaves unescaped in a list or dict follows Unicode's table of printable
    characters, which is not modelled here: [repr_ok] stands for it. *)
Definition ascii_stdout (repr_ok : pyval -> bool) : stream :=
  {| wide := false;
     encodes := fun v =>
       match v with
       | PStr s => is_ascii s
       | _ => repr_ok v
       end |}.

(** ** HTTP requests and responses ([requests]) *)

Inductive method : Type := GET | POST.

Record request : Type := {
  meth : method;
  url : fstring;
  headers : list (string * fstring);
  json : option pyval;          (* the [json=] argument *)
  params : option pyval         (* the [params=] argument *)
}.

(** [body_json] is what [resp.json()] returns, [None] when the body is not
    JSON and the call raises. *)
Record response : Type := {
  status_code : Z;
  body_json : option pyval
}.

(** The text printed between lines 86 and 132. *)
Definition explanation : string :=
  nl +:+
  "When Python's Eval() runs with a dataset:" +:+ nl +:+
  nl +:+
  "1. It iterates over dataset records which have:" +:+ nl +:+
  "   - id: the record identifier" +:+ nl +:+
  "   - _xact_id: transaction ID" +:+ nl +:+
  "   - created: timestamp" +:+ nl +:+
  "   - input: your input data" +:+ nl +:+
  "   - expected: expected output" +:+ nl +:+
  nl +:+
  "2. For each record, it creates an EvalCase with these fields populated:" +:+ nl +:+
  "   datum = EvalCase(" +:+ nl +:+
  "       input=record['input']," +:+ nl +:+
  "       expected=record['expected']," +:+ nl +:+
  "       id=record['id']," +:+ nl +:+
  "       _xact_id=record['_xact_id']," +:+ nl +:+
  "       created=record['created']" +:+ nl +:+
  "   )" +:+ nl +:+
  nl +:+
  "3. When logging the eval span, it checks if datum has id and _xact_id:" +:+ nl +:+
  "   origin = {" +:+ nl +:+
  "       " +:+ dq +:+ "object_type" +:+ dq +:+ ": " +:+ dq +:+ "dataset" +:+ dq +:+ "," +:+ nl +:+
  "       " +:+ dq +:+ "object_id" +:+ dq +:+ ": dataset.id," +:+ nl +:+
  "       " +:+ dq +:+ "id" +:+ dq +:+ ": datum.id," +:+ nl +:+
  "       " +:+ dq +:+ "created" +:+ dq +:+ ": datum.created," +:+ nl +:+
  "       " +:+ dq +:+ "_xact_id" +:+ dq +:+ ": datum._xact_id," +:+ nl +:+
  "   } if datum.id and datum._xact_id else None" +:+ nl +:+
  nl +:+
  "4. The origin is passed to the span logger:" +:+ nl +:+
  "   experiment.start_span(" +:+ nl +:+
  "       name=" +:+ dq +:+ "eval" +:+ dq +:+ "," +:+ nl +:+
  "       input=datum.input," +:+ nl +:+
  "       expected=datum.expected," +:+ nl +:+
  "       origin=origin  # <-- This links it back to the dataset row" +:+ nl +:+
  "   )" +:+ nl +:+
  nl +:+
  "🎉 THE GO SDK DOES THE SAME THING!" +:+ nl +:+
  nl +:+
  "In Go (examples/datasets/main.go):" +:+ nl +:+
  "1. Creates dataset via API ✅" +:+ nl +:+
  "2. Inserts records ✅" +:+ nl +:+
  "3. Fetches records with evaluator.Datasets().Get() ✅" +:+ nl +:+
  "4. Each Case has ID, XactID, Created fields populated ✅" +:+ nl +:+
  "5. runCase() sets origin span attribute when fields present ✅" +:+ nl +:+
  nl +:+
  "Both implementations now match!" +:+ nl.

(** ** The remote service *)

(** The remote service as a process reaches it: some state, and a handler
    giving for each request the next state and either a response or nothing,
    when the call raises (connection failure, timeout). *)
Definition handler (service : Type) : Type :=
  service -> request -> service * option response.

(** How [requests] gets to the service depends on the process: it takes
    proxy, certificate and netrc settings from the environment and from
    files.  A transport gives the handler for each environment and files. *)
Definition transport (service : Type) : Type :=
  gmap string string -> gmap string string -> handler service.

(** ** The world the script runs in *)

Section Script.

Context {service : Type}.
Variable handle : transport service.

Record world : Type := {
  environ : gmap string string;                (* [os.environ] *)
  files : gmap string string;                  (* the local file system *)
  stdout : list fstring;                       (* one entry per [print] *)
  network : list (request * option response);  (* the calls made, in order *)
  remote : service
}.

(** A process that has printed nothing and made no call yet. *)
Definition boot (env fs : gmap string string) (s : service) : world :=
  {| environ := env; files := fs; stdout := []; network := []; remote := s |}.

(** State passing with exceptions. *)
Definition M (A : Type) : Type := world -> world * result A.

Definition ret {A : Type} (a : A) : M A := fun w => (w, Ok a).

Definition bind {A B : Type} (c : M A) (k : A -> M B) : M B :=
  fun w =>
    match c w with
    | (w', Ok a) => k a w'
    | (w', Raise e) => (w', Raise e)
    end.

(** A pure operation that may raise. *)
Definition lift {A : Type} (r : result A) : M A := fun w => (w, r).

(** [os.environ.get(k)] *)
Definition os_environ_get (k : string) : M pyval :=
  fun w =>
    (w, Ok (match environ w !! k with
            | Some s => PStr s
            | None => PNone
            end)).

(** [print(line)] on a standard output [enc], taken to be open (a write
    fails only in the encoder): the line is written, or the encoder raises
    and nothing of it is. *)
Definition print (enc : stream) (line : fstring) : M unit :=
  fun w =>
    if printable enc line then
      ({| environ := environ w; files := files w;
          stdout := stdout w ++ [line];
          network := network w; remote := remote w |}, Ok tt)
    else (w, Raise UnicodeEncodeError).

(** The call goes to the service, is logged, and raises when there is no
    response. *)
Definition requests_send (r : request) : M response :=
  fun w =>
    let (s', reply) := handle (environ w) (files w) (remote w) r in
    ({| environ := environ w; files := files w; stdout := stdout w;
        network := network w ++ [(r, reply)]; remote := s' |},
     match reply with
     | Some resp => Ok resp
     | None => Raise RequestException
     end).

(** [requests.post(url, headers=h, json=j)] *)
Definition requests_post (u : fstring) (h : list (string * fstring))
    (j : pyval) : M response :=
  requests_send {| meth := POST; url := u; headers := h;
                   json := Some j; params := None |}.

(** [requests.get(url, headers=h, params=p)] *)
Definition requests_get (u : fstring) (h : list (string * fstring))
    (p : pyval) : M response :=
  requests_send {| meth := GET; url := u; headers := h;
                   json := None; params := Some p |}.

(** [resp.json()] *)
Definition resp_json (resp : response) : M pyval :=
  lift (match body_json resp with
        | Some v => Ok v
        | None => Raise JSONDecodeError
        end).

(** [for i, x in enumerate(l): body], counting from [i]. *)
Fixpoint for_enumerate (body : Z -> pyval -> M unit) (i : Z)
    (l : list pyval) : M unit :=
  match l with
  | [] => ret tt
  | x :: l' => bind (body i x) (fun _ => for_enumerate body (i + 1) l')
  end.

End Script.

Arguments world : clear implicits.
Arguments M : clear implicits.

Declare Scope py_scope.
Delimit Scope py_scope with py.
Notation "x <- c ;; k" := (bind c (fun x => k))
  (at level 100, c at next level, right associativity) : py_scope.
Notation "c ;; k" := (bind c (fun _ => k))
  (at level 100, right associativity) : py_scope.

(** ** The script *)

Section Main.

Context {service : Type}.
Variable enc : stream.
Variable handle : transport service.

Local Open Scope py_scope.

(** Lines 11-137. *)
Definition main : M service unit :=
  api_key <- os_environ_get "BRAINTRUST_API_KEY" ;;
  if negb (truthy api_key) then
    print enc [FLit "Error: BRAINTRUST_API_KEY not set"] ;;
    ret tt
  else
    let base_url := PStr "https://api.braintrust.dev" in
    let headers := [("Authorization", [FLit "Bearer "; FVal api_key])] in

    (* Step 1: Get or create project *)
    print enc [FLit "1️⃣  Getting project..."] ;;
    resp <- requests_post handle
              [FVal base_url; FLit "/v1/project"]
              headers
              (PDict [("name", PStr "python-origin-demo");
                      ("org_name", PStr "Braintrust")]) ;;
    project <- resp_json resp ;;
    project_id <- lift (getitem project "id") ;;
    print enc [FLit "   ✓ Project ID: "; FVal project_id] ;;

    (* Step 2: Create dataset *)
    print enc [FLit (nl +:+ "2️⃣  Creating dataset...")] ;;
    resp <- requests_post handle
              [FVal base_url; FLit "/v1/dataset"]
              headers
              (PDict [("project_id", project_id);
                      ("name", PStr "Python Dataset Example")]) ;;
    dataset <- resp_json resp ;;
    dataset_id <- lift (getitem dataset "id") ;;
    print enc [FLit "   ✓ Dataset ID: "; FVal dataset_id] ;;

    (* Step 3: Insert records into dataset *)
    print enc [FLit (nl +:+ "3️⃣  Inserting records into dataset...")] ;;
    resp <- requests_post handle
              [FVal base_url; FLit "/v1/dataset/"; FVal dataset_id;
               FLit "/insert"]
              headers
              (PDict [("events", PList [
                 PDict [("input", PDict [("text", PStr "hello world")]);
                        ("expected",
                         PDict [("response", PStr "Hello World")])];
                 PDict [("input",
                         PDict [("text", PStr "braintrust is awesome")]);
                        ("expected",
                         PDict [("response",
                                 PStr "Braintrust Is Awesome")])]])]) ;;
    print enc [FLit "   ✓ Inserted records"] ;;

    (* Step 4: Fetch records back to see their IDs *)
    print enc [FLit (nl +:+ "4️⃣  Fetching records to see their IDs...")] ;;
    resp <- requests_get handle
              [FVal base_url; FLit "/v1/dataset/"; FVal dataset_id;
               FLit "/fetch"]
              headers
              (PDict [("limit", PInt 10)]) ;;
    fetch_result <- resp_json resp ;;

    events <- lift (getitem fetch_result "events") ;;
    n <- lift (py_len events) ;;
    print enc [FLit "   ✓ Fetched "; FVal n; FLit " records"] ;;
    events <- lift (getitem fetch_result "events") ;;
    items <- lift (py_iter events) ;;
    for_enumerate
      (fun i event =>
         print enc [FLit (nl +:+ "   Record "); FVal (PInt (i + 1)); FLit ":"] ;;
         v <- lift (py_get event "id") ;;
         print enc [FLit "     - id: "; FVal v] ;;
         v <- lift (py_get event "_xact_id") ;;
         print enc [FLit "     - _xact_id: "; FVal v] ;;
         v <- lift (py_get event "created") ;;
         print enc [FLit "     - created: "; FVal v] ;;
         v <- lift (py_get event "input") ;;
         print enc [FLit "     - input: "; FVal v] ;;
         v <- lift (py_get event "expected") ;;
         print enc [FLit "     - expected: "; FVal v])
      0 items ;;

    print enc [FLit (nl +:+ str_repeat "=" 80)] ;;
    print enc [FLit "🎯 HOW ORIGIN WORKS IN PYTHON SDK"] ;;
    print enc [FLit (str_repeat "=" 80)] ;;
    print enc [FLit explanation] ;;

    print enc [FLit (nl +:+ "💡 To see origin in action:")] ;;
    print enc [FLit "   1. Run the Go example: go run examples/datasets/main.go"] ;;
    print enc [FLit "   2. Check the Braintrust UI - each eval result will have origin info"] ;;
    print enc [FLit "   3. The origin links back to the dataset record that generated it"].

(** What the operating system sees of a run. *)
Record process : Type := {
  final : world service;
  stderr : list exn;      (* the traceback of an uncaught exception *)
  exit_status : Z
}.

(** Lines 140-141: [if __name__ == "__main__": main()].  The interpreter
    exits with status 0 when [main] returns and prints a traceback to
    standard error and exits with status 1 when it raises. *)
Definition run_main (w : world service) : process :=
  match main w with
  | (w', Ok _) => {| final := w'; stderr := []; exit_status := 0 |}
  | (w', Raise e) => {| final := w'; stderr := [e]; exit_status := 1 |}
  end.

End Main.

Arguments main : simpl never.

(** ** Vocabulary of the properties *)

(** The credential as the script reads it. *)
Definition api_key_of (env : gmap string string) : pyval :=
  match env !! "BRAINTRUST_API_KEY" with
  | Some s => PStr s
  | None => PNone
  end.

Definition error_line : fstring := [FLit "Error: BRAINTRUST_API_KEY not set"].

Definition base : pyval := PStr "https://api.braintrust.dev".

Definition bearer (key : pyval) : list (string * fstring) :=
  [("Authorization", [FLit "Bearer "; FVal key])].

(** The four rows of the table of remote calls. *)
Definition project_request (key : pyval) : request :=
  {| meth := POST;
     url := [FVal base; FLit "/v1/project"];
     headers := bearer key;
     json := Some (PDict [("name", PStr "python-origin-demo");
                          ("org_name", PStr "Braintrust")]);
     params := None |}.

Definition dataset_request (key project_id : pyval) : request :=
  {| meth := POST;
     url := [FVal base; FLit "/v1/dataset"];
     headers := bearer key;
     json := Some (PDict [("project_id", project_id);
                          ("name", PStr "Python Dataset Example")]);
     params := None |}.

(** The two hardcoded records. *)
Definition fixed_records : list pyval :=
  [ PDict [("input", PDict [("text", PStr "hello world")]);
           ("expected", PDict [("response", PStr "Hello World")])];
    PDict [("input", PDict [("text", PStr "braintrust is awesome")]);
           ("expected", PDict [("response", PStr "Braintrust Is Awesome")])] ].

Definition insert_url (dataset_id : pyval) : fstring :=
  [FVal base; FLit "/v1/dataset/"; FVal dataset_id; FLit "/insert"].

Definition insert_request (key dataset_id : pyval) : request :=
  {| meth := POST;
     url := insert_url dataset_id;
     headers := bearer key;
     json := Some (PDict [("events", PList fixed_records)]);
     params := None |}.

Definition fetch_url (dataset_id : pyval) : fstring :=
  [FVal base; FLit "/v1/dataset/"; FVal dataset_id; FLit "/fetch"].

Definition fetch_request (key dataset_id : pyval) : request :=
  {| meth := GET;
     url := fetch_url dataset_id;
     headers := bearer key;
     json := None;
     params := Some (PDict [("limit", PInt 10)]) |}.

(** A POST to [/v1/dataset/{id}/insert], whatever the id. *)
Definition is_insert_request (r : request) : bool :=
  match meth r, url r with
  | POST, [FVal _; FLit a; FVal _; FLit b] =>
      String.eqb a "/v1/dataset/" && String.eqb b "/insert"
  | _, _ => false
  end.

(** The [id] field of the JSON object a call answered with, when there is
    one. *)
Definition response_id (reply : option response) : option pyval :=
  match reply with
  | Some resp =>
      match body_json resp with
      | Some (PDict d) => dict_lookup "id" d
      | _ => None
      end
  | None => None
  end.

(** A record of the fetch result is a JSON object. *)
Definition is_record (v : pyval) : Prop :=
  match v with
  | PDict _ => True
  | _ => False
  end.

(** A field of a record as the script displays it: [None] when missing. *)
Definition shown (event : pyval) (k : string) : pyval :=
  match event with
  | PDict d => match dict_lookup k d with Some x => x | None => PNone end
  | _ => PNone
  end.

(** The six lines printed for the record at position [i]. *)
Definition record_block (i : Z) (event : pyval) : list fstring :=
  [ [FLit (nl +:+ "   Record "); FVal (PInt (i + 1)); FLit ":"];
    [FLit "     - id: "; FVal (shown event "id")];
    [FLit "     - _xact_id: "; FVal (shown event "_xact_id")];
    [FLit "     - created: "; FVal (shown event "created")];
    [FLit "     - input: "; FVal (shown event "input")];
    [FLit "     - expected: "; FVal (shown event "expected")] ].

Fixpoint record_lines (i : Z) (events : list pyval) : list fstring :=
  match events with
  | [] => []
  | event :: rest => record_block i event ++ record_lines (i + 1) rest
  end.

Definition banner1 : fstring := [FLit "1️⃣  Getting project..."].
Definition banner2 : fstring := [FLit (nl +:+ "2️⃣  Creating dataset...")].
Definition banner3 : fstring :=
  [FLit (nl +:+ "3️⃣  Inserting records into dataset...")].
Definition banner4 : fstring :=
  [FLit (nl +:+ "4️⃣  Fetching records to see their IDs...")].
Definition inserted_line : fstring := [FLit "   ✓ Inserted records"].

(** Everything printed up to and including the banner of step 4. *)
Definition lines_before_fetch (project_id dataset_id : pyval) : list fstring :=
  [ banner1;
    [FLit "   ✓ Project ID: "; FVal project_id];
    banner2;
    [FLit "   ✓ Dataset ID: "; FVal dataset_id];
    banner3;
    inserted_line;
    banner4 ].

(** The static text that ends a complete run (lines 83-137). *)
Definition closing_lines : list fstring :=
  [ [FLit (nl +:+ str_repeat "=" 80)];
    [FLit "🎯 HOW ORIGIN WORKS IN PYTHON SDK"];
    [FLit (str_repeat "=" 80)];
    [FLit explanation];
    [FLit (nl +:+ "💡 To see origin in action:")];
    [FLit "   1. Run the Go example: go run examples/datasets/main.go"];
    [FLit "   2. Check the Braintrust UI - each eval result will have origin info"];
    [FLit "   3. The origin links back to the dataset record that generated it"] ].

(** The state of the service after it has served the given calls. *)
Definition served {service : Type} (handle : handler service)
    (calls : list (request * option response)) (s : service) : service :=
  fold_left (fun s c => (handle s c.1).1) calls s.

(** Each logged reply is the one the service gave. *)
Fixpoint answered {service : Type} (handle : handler service)
    (calls : list (request * option response)) (s : service) : Prop :=
  match calls with
  | [] => True
  | (r, reply) :: rest =>
      (handle s r).2 = reply /\ answered handle rest (handle s r).1
  end.

(** What a step of the script may do to the world: extend the output and
    the call log, and move the service by the calls made; nothing else. *)
Definition extends {service : Type} (handle : transport service)
    (w w' : world service) : Prop :=
  environ w' = environ w /\
  files w' = files w /\
  (exists out, stdout w' = stdout w ++ out) /\
  (exists calls, network w' = network w ++ calls /\
                 answered (handle (environ w) (files w)) calls (remote w) /\
                 remote w' =
                   served (handle (environ w) (files w)) calls (remote w)).

(** A step that only prints: it leaves everything but the output alone. *)
Definition prints_only {service : Type} (c : M service unit) : Prop :=
  forall w,
    environ (c w).1 = environ w /\ files (c w).1 = files w /\
    network (c w).1 = network w /\ remote (c w).1 = remote w /\
    exists out, stdout (c w).1 = stdout w ++ out.

(** A step that respects the frame, from any world. *)
Definition preserves {service : Type} (handle : transport service)
    {A : Type} (c : M service A) : Prop :=
  forall w, extends handle w (c w).1.

(** The world after some more lines have been printed. *)
Definition emit_lines {service : Type} (lines : list fstring)
    (w : world service) : world service :=
  {| environ := environ w; files := files w;
     stdout := stdout w ++ lines;
     network := network w; remote := remote w |}.

(** The line that announces how many records came back. *)
Definition fetched_line (n : nat) : fstring :=
  [FLit "   ✓ Fetched "; FVal (PInt (Z.of_nat n)); FLit " records"].

(** A service that is unreachable: every call raises. *)
Definition unreachable : transport unit :=
  fun _ _ s _ => (s, None).

(** A small service for examples.  Its state counts the calls served; it
    answers the creation calls with ids, the insert with an empty body that
    is not JSON, and the fetch with the given events. *)
Definition demo_service (events : pyval) : transport nat :=
  fun _ _ s r =>
    (S s,
     Some (match s with
           | O => {| status_code := 200;
                     body_json := Some (PDict [("id", PStr "p-1")]) |}
           | S O => {| status_code := 200;
                       body_json := Some (PDict [("id", PStr "d-1")]) |}
           | S (S O) => {| status_code := 500; body_json := None |}
           | _ => {| status_code := 200;
                     body_json := Some (PDict [("events", events)]) |}
           end)).

Definition demo_env : gmap string string :=
  {[ "BRAINTRUST_API_KEY" := "sk-demo" ]}.

(** An environment where the credential is set but empty. *)
Definition empty_key_env : gmap string string :=
  {[ "BRAINTRUST_API_KEY" := EmptyString ]}.

(** A fetch result whose only record carries none of the five fields. *)
Definition bare_events : pyval := PList [PDict []].

(** A fetch result with two records, the second without [created]. *)
Definition demo_events : pyval :=
  PList [ PDict [("id", PStr "r-1"); ("_xact_id", PStr "1000");
                 ("created", PStr "2024-01-01T00:00:00Z");
                 ("input", PDict [("text", PStr "hello world")]);
                 ("expected", PDict [("response", PStr "Hello World")])];
          PDict [("id", PStr "r-2"); ("_xact_id", PStr "1000");
                 ("input", PDict [("text", PStr "braintrust is awesome")]);
                 ("expected",
                  PDict [("response", PStr "Braintrust Is Awesome")])] ].

(** ** Vocabulary of the further properties *)

(** What [resp.json()] gives for a reply, or how getting there raises. *)
Definition reply_json (reply : option response) : result pyval :=
  match reply with
  | None => Raise RequestException
  | Some resp =>
      match body_json resp with
      | None => Raise JSONDecodeError
      | Some v => Ok v
      end
  end.

(** [resp.json()[k]] for a reply. *)
Definition reply_field (k : string) (reply : option response) : result pyval :=
  match reply_json reply with
  | Ok v => getitem v k
  | Raise e => Raise e
  end.

(** The first line of the block of the item at position [i]. *)
Definition record_header (i : Z) : fstring :=
  [FLit (nl +:+ "   Record "); FVal (PInt (i + 1)); FLit ":"].

(** The five fields displayed for a record. *)
Definition field_names : list string :=
  ["id"; "_xact_id"; "created"; "input"; "expected"].

(** The stream can encode each field of the record as it is displayed. *)
Definition record_printable (enc : stream) (event : pyval) : Prop :=
  Forall (fun k => writes enc (shown event k) = true) field_names.

(** What printing some lines, one [print] each, adds to the output and how
    it ends: at the first line the stream cannot encode. *)
Fixpoint printed (enc : stream) (lines : list fstring)
    : list fstring * result unit :=
  match lines with
  | [] => ([], Ok tt)
  | line :: rest =>
      if printable enc line then
        (line :: (printed enc rest).1, (printed enc rest).2)
      else ([], Raise UnicodeEncodeError)
  end.

(** What the loop prints for any items and how it ends: the block of each
    record, as far as the stream can encode it, up to the first item that is
    not an object, of which only the header appears before [.get] fails. *)
Fixpoint loop_outcome (enc : stream) (i : Z) (items : list pyval)
    : list fstring * result unit :=
  match items with
  | [] => ([], Ok tt)
  | PDict d :: rest =>
      match (printed enc (record_block i (PDict d))).2 with
      | Ok _ =>
          ((printed enc (record_block i (PDict d))).1
             ++ (loop_outcome enc (i + 1) rest).1,
           (loop_outcome enc (i + 1) rest).2)
      | Raise e => ((printed enc (record_block i (PDict d))).1, Raise e)
      end
  | _ :: _ => ([record_header i], Raise AttributeError)
  end.

(** The line that announces the count [len] returned. *)
Definition count_line (n : pyval) : fstring :=
  [FLit "   ✓ Fetched "; FVal n; FLit " records"].

(** What step 4 adds once the fetch result has [events], on a stream that
    has the characters of the script's text: the output (after the lines
    [out4] printed so far) and the result of the run. *)
Definition after_fetch (enc : stream) (out4 : list fstring) (events : pyval)
    : list fstring * result unit :=
  match py_len events, py_iter events with
  | Ok n, Ok items =>
      match (loop_outcome enc 0 items).2 with
      | Ok _ =>
          (out4 ++ count_line n :: (loop_outcome enc 0 items).1
                ++ closing_lines, Ok tt)
      | Raise e =>
          (out4 ++ count_line n :: (loop_outcome enc 0 items).1, Raise e)
      end
  | Raise e, _ => (out4, Raise e)
  | Ok n, Raise e => (out4 ++ [count_line n], Raise e)
  end.

(** The output, the calls and the result of a run started by a fresh
    process, read off the stream and the replies the four calls get (a reply
    is not looked at when the run stops before its call). *)
Definition run_of (enc : stream) (key : pyval)
    (rp1 rp2 rp3 rp4 : option response)
    : list fstring * list (request * option response) * result unit :=
  if negb (truthy key) then ([error_line], [], Ok tt)
  else if negb (wide enc) then ([], [], Raise UnicodeEncodeError)
  else
    let c1 := (project_request key, rp1) in
    match reply_field "id" rp1 with
    | Raise e => ([banner1], [c1], Raise e)
    | Ok pid =>
        if negb (writes enc pid)
        then ([banner1], [c1], Raise UnicodeEncodeError)
        else
        let c2 := (dataset_request key pid, rp2) in
        let out2 :=
          [banner1; [FLit "   ✓ Project ID: "; FVal pid]; banner2] in
        match reply_field "id" rp2 with
        | Raise e => (out2, [c1; c2], Raise e)
        | Ok did =>
            if negb (writes enc did)
            then (out2, [c1; c2], Raise UnicodeEncodeError)
            else
            let c3 := (insert_request key did, rp3) in
            let out3 :=
              out2 ++ [[FLit "   ✓ Dataset ID: "; FVal did]; banner3] in
            match rp3 with
            | None => (out3, [c1; c2; c3], Raise RequestException)
            | Some _ =>
                let c4 := (fetch_request key did, rp4) in
                let calls := [c1; c2; c3; c4] in
                let out4 := lines_before_fetch pid did in
                match reply_field "events" rp4 with
                | Raise e => (out4, calls, Raise e)
                | Ok events =>
                    ((after_fetch enc out4 events).1, calls,
                     (after_fetch enc out4 events).2)
                end
            end
        end
    end.

(** The same service, with the status code of every response changed. *)
Definition restatus {service : Type} (f : Z -> Z)
    (handle : transport service) : transport service :=
  fun env fs s r =>
    let (s', reply) := handle env fs s r in
    (s', match reply with
         | Some resp => Some {| status_code := f (status_code resp);
                                body_json := body_json resp |}
         | None => None
         end).

(** A logged call without the status code of its response. *)
Definition forget_status (c : request * option response)
    : request * option (option pyval) :=
  (c.1, match c.2 with
        | Some resp => Some (body_json resp)
        | None => None
        end).

(** Two steps that run in lockstep: from related worlds they reach related
    worlds, and return related values or raise the same exception. *)
Definition sim {service : Type}
    (RW : world service -> world service -> Prop)
    {A : Type} (RA : A -> A -> Prop) (c1 c2 : M service A) : Prop :=
  forall w1 w2,
    RW w1 w2 ->
    RW (c1 w1).1 (c2 w2).1 /\
    match (c1 w1).2, (c2 w2).2 with
    | Ok a1, Ok a2 => RA a1 a2
    | Raise e1, Raise e2 => e1 = e2
    | _, _ => False
    end.

(** Worlds that agree but for the status codes in the call log. *)
Definition same_but_status {service : Type} (w1 w2 : world service) : Prop :=
  environ w1 = environ w2 /\ files w1 = files w2 /\
  stdout w1 = stdout w2 /\ remote w1 = remote w2 /\
  map forget_status (network w1) = map forget_status (network w2).

(** A service that answers the creation calls with ids and the fetch with
    a server error whose body is not JSON. *)
Definition broken_fetch_service : transport nat :=
  fun _ _ s r =>
    (S s,
     Some (match s with
           | O => {| status_code := 200;
                     body_json := Some (PDict [("id", PStr "p-1")]) |}
           | S O => {| status_code := 200;
                       body_json := Some (PDict [("id", PStr "d-1")]) |}
           | S (S O) => {| status_code := 200; body_json := Some (PDict []) |}
           | _ => {| status_code := 502; body_json := None |}
           end)).

(** A service whose project call answers with a JSON array. *)
Definition array_service : transport unit :=
  fun _ _ s _ =>
    (s, Some {| status_code := 200; body_json := Some (PList []) |}).

(** A fetch result whose second item is a string, not a record. *)
Definition mixed_events : pyval :=
  PList [ PDict [("id", PStr "r-1")]; PStr "oops"; PDict [("id", PStr "r-3")] ].

(** The same service, with the response to every insert request changed. *)
Definition reinsert {service : Type} (g : response -> response)
    (handle : transport service) : transport service :=
  fun env fs s r =>
    let (s', reply) := handle env fs s r in
    (s', if is_insert_request r
         then match reply with
              | Some resp => Some (g resp)
              | None => None
              end
         else reply).

(** Worlds that agree on everything but the replies in the call log. *)
Definition same_requests {service : Type} (w1 w2 : world service) : Prop :=
  environ w1 = environ w2 /\ files w1 = files w2 /\
  stdout w1 = stdout w2 /\ remote w1 = remote w2 /\
  map fst (network w1) = map fst (network w2).

(** The records a run fetched: the items of [events] in the reply to its
    fourth call, when there is such a list. *)
Definition fetched_records (calls : list (request * option response))
    : list pyval :=
  match calls with
  | [_; _; _; (_, reply)] =>
      match reply_field "events" reply with
      | Ok (PList events) => events
      | _ => []
      end
  | _ => []
  end.

(** The id returned by the dataset-creation call of a run. *)
Definition created_dataset_id (calls : list (request * option response))
    : option pyval :=
  match calls with
  | _ :: (_, reply) :: _ => response_id reply
  | _ => None
  end.

Module Origin.

(** Modelled from the spec: the derivation of the origin reference.  The
    script never derives one: it prints a text about it.  The code that does
    is the evaluation loop of the SDK ([runCase] in the Go SDK, [Eval] in the
    Python one), which is not among the sources at hand.  The specification
    has the origin reference as the composite value
    [{object_type, object_id, id, created, _xact_id}] linking a result to a
    record and its dataset, constructed only when both [id] and [_xact_id]
    are present on the source record; otherwise no origin link is produced
    (the fields of a record are optional and nullable).  So a field is read
    here as the script reads the fields of a record, a missing one as
    [None], and is present when what is read is not [None]. *)
Definition has_field (record : pyval) (k : string) : bool :=
  match shown record k with
  | PNone => false
  | _ => true
  end.

Definition origin_reference (dataset_id record : pyval) : option pyval :=
  if has_field record "id" && has_field record "_xact_id" then
    Some (PDict [ ("object_type", PStr "dataset");
                  ("object_id", dataset_id);
                  ("id", shown record "id");
                  ("created", shown record "created");
                  ("_xact_id", shown record "_xact_id") ])
  else None.

End Origin.

(** A surrogate on its own, as JSON can carry it. *)
Definition lone_surrogate : string :=
  String (ascii_of_nat 237)
    (String (ascii_of_nat 160) (String (ascii_of_nat 128) EmptyString)).

(** A fetch result whose only record has an id that a strict encoder
    rejects. *)
Definition surrogate_events : pyval :=
  PList [PDict [("id", PStr lone_surrogate); ("_xact_id", PStr "1000")]].
(** * Properties *)

(** ** The script *)

Section ScriptProperties.

Context {service : Type}.
Variable enc : stream.
Variable handle : transport service.

(** *** The credential check *)

Lemma printable_error_line : printable enc error_line = true.
Proof. unfold printable. cbn. now destruct (wide enc). Qed.

Lemma main_without_key w :
  truthy (api_key_of (environ w)) = false ->
  main enc handle w =
    ({| environ := environ w; files := files w;
        stdout := stdout w ++ [error_line];
        network := network w; remote := remote w |}, Ok tt).
Proof.
  intros H. unfold main, bind at 1, os_environ_get.
  fold (api_key_of (environ w)). rewrite H.
  cbn [negb bind]. unfold print. fold error_line.
  rewrite printable_error_line. reflexivity.
Qed.

(** C3: when the credential variable is absent from the environment, the
    run prints the configuration error exactly once, makes no network call
    (the service is left as it was) and returns. *)
Theorem missing_credential_stops_before_network :
  forall w : world service,
    environ w !! "BRAINTRUST_API_KEY" = None ->
    stdout (main enc handle w).1 = stdout w ++ [error_line] /\
    network (main enc handle w).1 = network w /\
    remote (main enc handle w).1 = remote w /\
    (main enc handle w).2 = Ok tt.
Proof.
  intros w H. rewrite main_without_key.
  - repeat split.
  - unfold api_key_of. now rewrite H.
Qed.

(** C9: an empty credential is treated as an absent one: in both cases
    the run prints the configuration error, makes no network call and
    returns early. *)
Theorem empty_credential_like_absent :
  forall w : world service,
    environ w !! "BRAINTRUST_API_KEY" = None \/
    environ w !! "BRAINTRUST_API_KEY" = Some EmptyString ->
    stdout (main enc handle w).1 = stdout w ++ [error_line] /\
    network (main enc handle w).1 = network w /\
    remote (main enc handle w).1 = remote w /\
    (main enc handle w).2 = Ok tt.
Proof.
  intros w H. rewrite main_without_key.
  - repeat split.
  - unfold api_key_of. destruct H as [-> | ->]; reflexivity.
Qed.

(** C10: on the missing-credential exit the message goes to standard
    output, nothing goes to standard error, and the exit status is 0,
    which is also the exit status of every run that completes. *)
Theorem missing_credential_exits_zero :
  forall w : world service,
    environ w !! "BRAINTRUST_API_KEY" = None ->
    stdout (final (run_main enc handle w)) = stdout w ++ [error_line] /\
    stderr (run_main enc handle w) = [] /\
    exit_status (run_main enc handle w) = 0 /\
    (forall w2 : world service,
       (main enc handle w2).2 = Ok tt ->
       exit_status (run_main enc handle w2)
         = exit_status (run_main enc handle w)).
Proof.
  intros w H.
  assert (E : main enc handle w =
    ({| environ := environ w; files := files w;
        stdout := stdout w ++ [error_line];
        network := network w; remote := remote w |}, Ok tt)).
  { apply main_without_key. unfold api_key_of. now rewrite H. }
  unfold run_main. rewrite E. cbn. repeat split.
  intros w2. destruct (main enc handle w2) as [w2' [[] | e]]; cbn;
    [reflexivity | discriminate].
Qed.

End ScriptProperties.

Lemma missing_credential_stops_before_network_witness :
  stdout (main utf8_stdout unreachable (boot ∅ ∅ tt)).1
    = [] ++ [error_line] /\
  network (main utf8_stdout unreachable (boot ∅ ∅ tt)).1 = [] /\
  remote (main utf8_stdout unreachable (boot ∅ ∅ tt)).1 = tt /\
  (main utf8_stdout unreachable (boot ∅ ∅ tt)).2 = Ok tt.
Proof.
  apply (missing_credential_stops_before_network utf8_stdout unreachable
           (boot ∅ ∅ tt)).
  reflexivity.
Defined.

Section Frame.

Context {service : Type}.
Variable enc : stream.
Variable handle : transport service.

(** *** Steps that only print *)

Lemma prints_only_ret : prints_only (service:=service) (ret tt).
Proof. intros w. cbn. repeat split. exists []. now rewrite app_nil_r. Qed.

Lemma prints_only_print line :
  prints_only (service:=service) (print enc line).
Proof.
  intros w. unfold print. destruct (printable enc line); cbn.
  - repeat split. eauto.
  - repeat split. exists []. now rewrite app_nil_r.
Qed.

Lemma prints_only_lift {A} (r : result A) (k : A -> M service unit) :
  (forall x, prints_only (k x)) -> prints_only (bind (lift r) k).
Proof.
  intros Hk w. unfold bind, lift. destruct r as [x | e].
  - apply Hk.
  - cbn. repeat split. exists []. now rewrite app_nil_r.
Qed.

Lemma prints_only_bind (c : M service unit) k :
  prints_only c -> (forall x, prints_only (k x)) -> prints_only (bind c k).
Proof.
  intros Hc Hk w. unfold bind. specialize (Hc w).
  destruct (c w) as [w1 [x|e]]; cbn in *.
  - specialize (Hk x w1). destruct Hc as (E1 & E2 & E3 & E4 & out & E5).
    destruct Hk as (F1 & F2 & F3 & F4 & out' & F5).
    rewrite F1, F2, F3, F4, F5, E1, E2, E3, E4, E5.
    repeat split. exists (out ++ out'). now rewrite app_assoc.
  - exact Hc.
Qed.

Lemma prints_only_for_enumerate (body : Z -> pyval -> M service unit) :
  (forall i x, prints_only (body i x)) ->
  forall l i, prints_only (for_enumerate body i l).
Proof.
  intros Hb l. induction l as [| x l IH]; intros i; cbn [for_enumerate].
  - apply prints_only_ret.
  - apply prints_only_bind; [apply Hb | intros _; apply IH].
Qed.

(** *** Steps that respect the frame *)

Lemma served_app (h : handler service) calls1 calls2 (s : service) :
  served h (calls1 ++ calls2) s = served h calls2 (served h calls1 s).
Proof. unfold served. apply fold_left_app. Qed.

Lemma answered_app (h : handler service) calls1 calls2 (s : service) :
  answered h calls1 s ->
  answered h calls2 (served h calls1 s) ->
  answered h (calls1 ++ calls2) s.
Proof.
  revert s. induction calls1 as [| [r reply] calls1 IH]; intros s H1 H2.
  - exact H2.
  - cbn in *. destruct H1 as [Hr H1]. split; [exact Hr |].
    apply IH; assumption.
Qed.

Lemma extends_refl w : extends handle w w.
Proof.
  repeat split.
  - exists []. now rewrite app_nil_r.
  - exists []. rewrite app_nil_r. repeat split.
Qed.

Lemma extends_trans w1 w2 w3 :
  extends handle w1 w2 -> extends handle w2 w3 -> extends handle w1 w3.
Proof.
  intros (E1 & E2 & (o1 & E3) & (c1 & E4 & A1 & E5))
         (F1 & F2 & (o2 & F3) & (c2 & F4 & A2 & F5)).
  repeat split.
  - congruence.
  - congruence.
  - exists (o1 ++ o2). rewrite F3, E3. now rewrite app_assoc.
  - exists (c1 ++ c2). repeat split.
    + rewrite F4, E4. now rewrite app_assoc.
    + rewrite E1, E2 in A2.
      apply answered_app; [exact A1 | now rewrite <- E5].
    + rewrite F5, E1, E2, E5. now rewrite served_app.
Qed.

Lemma preserves_ret {A} (a : A) : preserves handle (ret a).
Proof. intros w. apply extends_refl. Qed.

Lemma preserves_lift {A} (r : result A) : preserves handle (lift r).
Proof. intros w. apply extends_refl. Qed.

Lemma preserves_os_environ_get k : preserves handle (os_environ_get k).
Proof. intros w. apply extends_refl. Qed.

Lemma preserves_print line : preserves handle (print enc line).
Proof.
  intros w. unfold print. destruct (printable enc line); cbn.
  - repeat split.
    + eauto.
    + exists []. rewrite app_nil_r. repeat split.
  - apply extends_refl.
Qed.

Lemma preserves_requests_send r : preserves handle (requests_send handle r).
Proof.
  intros w. unfold requests_send.
  destruct (handle (environ w) (files w) (remote w) r) as [s' reply] eqn:E.
  cbn.
  repeat split.
  - exists []. now rewrite app_nil_r.
  - exists [(r, reply)]. cbn. rewrite E. repeat split.
Qed.

Lemma preserves_bind {A B} (c : M service A) (k : A -> M service B) :
  preserves handle c ->
  (forall x, preserves handle (k x)) ->
  preserves handle (bind c k).
Proof.
  intros Hc Hk w. unfold bind. specialize (Hc w).
  destruct (c w) as [w1 [x | e]]; cbn in *.
  - eapply extends_trans; [exact Hc | apply Hk].
  - exact Hc.
Qed.

Lemma preserves_for_enumerate (body : Z -> pyval -> M service unit) :
  (forall i x, preserves handle (body i x)) ->
  forall l i, preserves handle (for_enumerate body i l).
Proof.
  intros Hb l. induction l as [| x l IH]; intros i; cbn [for_enumerate].
  - apply preserves_ret.
  - apply preserves_bind; [apply Hb | intros _; apply IH].
Qed.

Ltac frame_step :=
  lazymatch goal with
  | |- preserves handle (bind _ _) => apply preserves_bind; [| intros ?]
  | |- preserves handle (print _ _) => apply preserves_print
  | |- preserves handle (ret _) => apply preserves_ret
  | |- preserves handle (lift _) => apply preserves_lift
  | |- preserves handle (resp_json _) => apply preserves_lift
  | |- preserves handle (os_environ_get _) => apply preserves_os_environ_get
  | |- preserves handle (requests_send _ _) => apply preserves_requests_send
  | |- preserves handle (for_enumerate _ _ _) =>
      apply preserves_for_enumerate; intros ? ?
  end.

Lemma preserves_main : preserves handle (main enc handle).
Proof.
  unfold main, requests_post, requests_get.
  apply preserves_bind; [frame_step | intros api_key].
  destruct (negb (truthy api_key)); cbv zeta; repeat frame_step.
Qed.

(** C8: a run changes nothing local but the terminal output.  The
    environment and the files are as they were, what was already printed
    stays, and the remote service is changed only by serving, one after
    the other, the HTTP calls the run made. *)
Theorem main_mutates_only_remote_state :
  forall w : world service,
    environ (main enc handle w).1 = environ w /\
    files (main enc handle w).1 = files w /\
    (exists out, stdout (main enc handle w).1 = stdout w ++ out) /\
    (exists calls,
       network (main enc handle w).1 = network w ++ calls /\
       answered (handle (environ w) (files w)) calls (remote w) /\
       remote (main enc handle w).1 =
         served (handle (environ w) (files w)) calls (remote w)).
Proof.
  intros w. exact (preserves_main w).
Qed.

End Frame.

Section Runs.

Context {service : Type}.
Variable enc : stream.
Variable handle : transport service.

(** *** The loop over the fetched items *)

Lemma printable_header i : printable enc (record_header i) = true.
Proof. unfold printable. cbn. now destruct (wide enc). Qed.

Lemma emit_lines_nil (w : world service) : emit_lines [] w = w.
Proof. unfold emit_lines. rewrite app_nil_r. now destruct w. Qed.

Lemma emit_lines_app l1 l2 (w : world service) :
  emit_lines l2 (emit_lines l1 w) = emit_lines (l1 ++ l2) w.
Proof.
  unfold emit_lines. cbn [environ files stdout network remote].
  now rewrite app_assoc.
Qed.

Lemma print_emits line (w : world service) :
  print enc line w =
    if printable enc line then (emit_lines [line] w, Ok tt)
    else (w, Raise UnicodeEncodeError).
Proof. reflexivity. Qed.

Lemma bind_print {B} line (k : unit -> M service B) (w : world service) :
  bind (print enc line) k w =
    if printable enc line then k tt (emit_lines [line] w)
    else (w, Raise UnicodeEncodeError).
Proof. unfold bind, print. now destruct (printable enc line). Qed.

(* One [print] of the block, with the [.get] before it. *)
Ltac block_step :=
  cbn [bind lift py_get printed fst snd];
  first [rewrite bind_print | rewrite print_emits];
  lazymatch goal with
  | |- (if printable enc ?l then _ else _) = _ => destruct (printable enc l)
  end;
  cbn [bind lift py_get printed fst snd];
  rewrite ?emit_lines_app; cbn [app].

Lemma record_body_outcome (body : Z -> pyval -> M service unit) :
  body =
    (fun i event =>
       print enc [FLit (nl +:+ "   Record "); FVal (PInt (i + 1)); FLit ":"] ;;
       v <- lift (py_get event "id") ;;
       print enc [FLit "     - id: "; FVal v] ;;
       v <- lift (py_get event "_xact_id") ;;
       print enc [FLit "     - _xact_id: "; FVal v] ;;
       v <- lift (py_get event "created") ;;
       print enc [FLit "     - created: "; FVal v] ;;
       v <- lift (py_get event "input") ;;
       print enc [FLit "     - input: "; FVal v] ;;
       v <- lift (py_get event "expected") ;;
       print enc [FLit "     - expected: "; FVal v])%py ->
  (forall i d w,
     body i (PDict d) w =
       (emit_lines (printed enc (record_block i (PDict d))).1 w,
        (printed enc (record_block i (PDict d))).2)) /\
  (forall i x w,
     ~ is_record x ->
     body i x w = (emit_lines [record_header i] w, Raise AttributeError)).
Proof.
  intros ->. split.
  - intros i d w. unfold record_block, shown.
    do 6 (block_step; [| now rewrite ?emit_lines_nil]).
    reflexivity.
  - intros i x w Hx.
    fold (record_header i). rewrite bind_print, printable_header.
    destruct x; try (exfalso; apply Hx; exact I); reflexivity.
Qed.

Lemma for_enumerate_any (body : Z -> pyval -> M service unit) :
  (forall i d w,
     body i (PDict d) w =
       (emit_lines (printed enc (record_block i (PDict d))).1 w,
        (printed enc (record_block i (PDict d))).2)) ->
  (forall i x w,
     ~ is_record x ->
     body i x w = (emit_lines [record_header i] w, Raise AttributeError)) ->
  forall l i w,
    for_enumerate body i l w =
      (emit_lines (loop_outcome enc i l).1 w, (loop_outcome enc i l).2).
Proof.
  intros Hd Hx l. induction l as [| x l IH]; intros i w.
  - cbn. unfold ret. now rewrite emit_lines_nil.
  - cbn [for_enumerate]. unfold bind.
    destruct x;
      try (rewrite Hx by (intros []); reflexivity).
    rewrite Hd. cbn [loop_outcome].
    destruct (printed enc (record_block i (PDict d))) as [ls [[] | e]];
      cbn [fst snd]; [| reflexivity].
    rewrite IH. now rewrite emit_lines_app.
Qed.

(** *** Enumeration of the paths of a run *)

Ltac crunch H :=
  cbn [bind ret lift resp_json os_environ_get getitem py_len py_iter
       truthy negb environ files stdout network remote fst snd app boot
       meth url headers json params length
       forallb part_ok orb andb is_ascii writes] in H.

Ltac path_step H :=
  match type of H with
  | context [writes enc ?v] => is_var v; destruct (writes enc v) eqn:?
  | context [handle ?e ?f ?s ?r] =>
      destruct (handle e f s r) as [? [?|]] eqn:?
  | context [match body_json ?r with _ => _ end] =>
      destruct (body_json r) as [[]|] eqn:?
  | context [match dict_lookup ?k ?d with _ => _ end] =>
      destruct (dict_lookup k d) eqn:?
  | context [py_len ?v] => is_var v; destruct v
  end; crunch H.

Ltac paths H :=
  unfold main, api_key_of in H;
  lazymatch type of H with
  | context [for_enumerate ?b] => set (body := b) in H
  end;
  unfold requests_post, requests_get, requests_send, print, printable, bind
    in H;
  cbn [forallb part_ok] in H;
  destruct (wide enc) eqn:?;
  crunch H;
  lazymatch type of H with
  | context [?env !! ?k] => destruct (env !! k) as [[|? ?]|] eqn:?
  end; crunch H;
  repeat path_step H.

Ltac use_replies :=
  repeat match goal with
    | E : _ !! _ = _ |- _ => rewrite E; clear E
    | E : wide _ = _ |- _ => rewrite E; clear E
    | E : writes _ _ = _ |- _ => rewrite E; clear E
    | E : body_json _ = _ |- _ => rewrite E; clear E
    | E : dict_lookup _ _ = _ |- _ => rewrite E; clear E
    end.

Ltac exact_loop H :=
  lazymatch type of H with
  | context [for_enumerate ?b ?i ?l ?w] =>
      let Hd := fresh "Hd" in
      let Hx := fresh "Hx" in
      destruct (record_body_outcome b eq_refl) as [Hd Hx];
      rewrite (for_enumerate_any b Hd Hx l i w) in H;
      clear Hd Hx;
      destruct (loop_outcome enc i l) as [? [[] | ?]] eqn:?;
      unfold emit_lines in H;
      crunch H
  | _ => idtac
  end.

(** Every run of a fresh process is the one [run_of] describes for the
    replies its calls got. *)
Lemma main_run_of :
  forall env fs s0,
    exists rp1 rp2 rp3 rp4,
      (stdout (main enc handle (boot env fs s0)).1,
       network (main enc handle (boot env fs s0)).1,
       (main enc handle (boot env fs s0)).2)
      = run_of enc (api_key_of env) rp1 rp2 rp3 rp4.
Proof.
  intros env fs s0.
  destruct (main enc handle (boot env fs s0)) as [w' r] eqn:H.
  paths H; exact_loop H; unfold ret in H; injection H as <- <-;
    cbn [stdout network fst snd];
    lazymatch goal with
    | |- context [(_, [(_, ?a); (_, ?b); (_, ?c); (_, ?d)], _)] =>
        exists a, b, c, d
    | |- context [(_, [(_, ?a); (_, ?b); (_, ?c)], _)] =>
        exists a, b, c, None
    | |- context [(_, [(_, ?a); (_, ?b)], _)] =>
        exists a, b, None, None
    | |- context [(_, [(_, ?a)], _)] =>
        exists a, None, None, None
    | |- _ => exists None, None, None, None
    end;
    unfold run_of, after_fetch, api_key_of, reply_field, reply_json;
    use_replies; cbn [truthy negb getitem py_len py_iter];
    use_replies; cbn [negb getitem py_len py_iter];
    use_replies; cbn [negb getitem py_len py_iter];
    use_replies; cbn [negb getitem py_len py_iter];
    use_replies; cbn [negb getitem py_len py_iter];
    cbn [fst snd]; try reflexivity.
  all: match goal with
       | E : loop_outcome _ _ _ = _ |- _ => rewrite E; clear E
       end.
  all: cbn [fst snd]; repeat rewrite <- app_assoc; reflexivity.
Qed.

End Runs.

(** ** Two runs in lockstep *)

Section Simulation.

Context {service : Type}.
Variable enc : stream.
Variables h1 h2 : transport service.
Variable RW : world service -> world service -> Prop.
Variable RR : request -> response -> response -> Prop.

Hypothesis RR_body :
  forall r r1 r2,
    is_insert_request r = false -> RR r r1 r2 -> body_json r1 = body_json r2.
Hypothesis RW_print :
  forall line w1 w2,
    RW w1 w2 -> RW (print enc line w1).1 (print enc line w2).1.
Hypothesis RW_send :
  forall r, sim RW (RR r) (requests_send h1 r) (requests_send h2 r).
Hypothesis RW_key :
  sim RW eq (os_environ_get "BRAINTRUST_API_KEY")
            (os_environ_get "BRAINTRUST_API_KEY").

Lemma sim_ret {A} (a : A) : sim RW eq (ret a) (ret a).
Proof. intros w1 w2 H. split; [exact H | reflexivity]. Qed.

Lemma sim_lift {A} (r : result A) : sim RW eq (lift r) (lift r).
Proof. intros w1 w2 H. split; [exact H |]. now destruct r. Qed.

Lemma sim_print line : sim RW eq (print enc line) (print enc line).
Proof.
  intros w1 w2 H. split; [now apply RW_print |].
  unfold print. now destruct (printable enc line).
Qed.

Lemma sim_resp_json r r1 r2 :
  is_insert_request r = false ->
  RR r r1 r2 -> sim RW eq (resp_json r1) (resp_json r2).
Proof.
  intros Hr H. unfold resp_json. rewrite (RR_body _ _ _ Hr H).
  apply sim_lift.
Qed.

Lemma sim_bind {A B} (RA : A -> A -> Prop) (RB : B -> B -> Prop)
    (c1 c2 : M service A) (k1 k2 : A -> M service B) :
  sim RW RA c1 c2 ->
  (forall a1 a2, RA a1 a2 -> sim RW RB (k1 a1) (k2 a2)) ->
  sim RW RB (bind c1 k1) (bind c2 k2).
Proof.
  intros Hc Hk w1 w2 H. unfold bind. specialize (Hc w1 w2 H).
  destruct (c1 w1) as [w1' [a1 | e1]], (c2 w2) as [w2' [a2 | e2]];
    cbn [fst snd] in Hc; destruct Hc as [HW HA]; try contradiction.
  - now apply Hk.
  - split; assumption.
Qed.

Lemma sim_for_enumerate (body : Z -> pyval -> M service unit) :
  (forall i x, sim RW eq (body i x) (body i x)) ->
  forall l i, sim RW eq (for_enumerate body i l) (for_enumerate body i l).
Proof.
  intros Hb l. induction l as [| x l IH]; intros i; cbn [for_enumerate].
  - apply sim_ret.
  - apply (sim_bind eq); [apply Hb | intros _ _ _; apply IH].
Qed.

Ltac sim_step :=
  lazymatch goal with
  | |- sim _ _ (bind (requests_send _ ?r) _) _ =>
      apply (sim_bind (RR r)); [apply RW_send | intros ? ? ?]
  | |- sim _ _ (bind (resp_json _) _) _ =>
      apply (sim_bind eq);
        [eapply sim_resp_json; [| eassumption]; reflexivity
        | intros ? ? <-]
  | |- sim _ _ (bind (print _ _) _) _ =>
      apply (sim_bind eq); [apply sim_print | intros ? ? _]
  | |- sim _ _ (bind (lift _) _) _ =>
      apply (sim_bind eq); [apply sim_lift | intros ? ? <-]
  | |- sim _ _ (bind (for_enumerate _ _ _) _) _ =>
      apply (sim_bind eq);
        [apply sim_for_enumerate; intros ? ? | intros ? ? _]
  | |- sim _ _ (print _ _) _ => apply sim_print
  | |- sim _ _ (ret _) _ => apply sim_ret
  end.

Lemma sim_main : sim RW eq (main enc h1) (main enc h2).
Proof.
  unfold main, requests_post, requests_get.
  apply (sim_bind eq); [exact RW_key | intros api_key ? <-].
  destruct (negb (truthy api_key)); cbv zeta; repeat sim_step.
Qed.

End Simulation.

Section Independence.

Context {service : Type}.
Variable enc : stream.
Variable handle : transport service.

(** X9: the status code of a response is never looked at: with every
    status code changed in any way, a run prints the same lines, ends the
    same way, leaves the service in the same state and makes the same
    calls with the same JSON bodies in reply. *)
Theorem status_codes_are_ignored :
  forall (f : Z -> Z) (w : world service),
    stdout (main enc (restatus f handle) w).1 = stdout (main enc handle w).1 /\
    (main enc (restatus f handle) w).2 = (main enc handle w).2 /\
    remote (main enc (restatus f handle) w).1 = remote (main enc handle w).1 /\
    map forget_status (network (main enc (restatus f handle) w).1) =
      map forget_status (network (main enc handle w).1).
Proof.
  intros f w.
  assert (H : sim same_but_status eq
                (main enc (restatus f handle)) (main enc handle)).
  { apply (sim_main enc _ _ _
             (fun _ r1 r2 => body_json r1 = body_json r2)).
    - intros r r1 r2 _ E. exact E.
    - intros line w1 w2 (E1 & E2 & E3 & E4 & E5).
      unfold same_but_status, print.
      destruct (printable enc line); cbn; rewrite ?E1, ?E2, ?E3, ?E4, ?E5;
        repeat split; assumption.
    - intros r w1 w2 (E1 & E2 & E3 & E4 & E5).
      unfold requests_send, restatus. rewrite E1, E2, E4.
      destruct (handle (environ w2) (files w2) (remote w2) r)
        as [s' [resp |]];
        cbn [fst snd environ files stdout network remote];
        (split; [| reflexivity]);
        unfold same_but_status;
        cbn [environ files stdout network remote];
        rewrite !map_app, E5; repeat split; assumption.
    - intros w1 w2 (E1 & E2 & E3 & E4 & E5).
      unfold os_environ_get. cbn [fst snd]. rewrite E1.
      split; [| reflexivity]. repeat split; assumption. }
  specialize (H w w). destruct H as [(_ & _ & E3 & E4 & E5) HR].
  { repeat split. }
  split; [exact E3 |]. split; [| split; [exact E4 | exact E5]].
  destruct (main enc (restatus f handle) w).2 as [[] | e1],
           (main enc handle w).2 as [[] | e2];
    try contradiction; congruence.
Qed.

(** The response to the insert call is never looked at: with it changed in
    any way, a run prints the same lines, ends the same way, leaves the
    service in the same state and makes the same calls. *)
Lemma insert_response_is_ignored :
  forall (g : response -> response) (w : world service),
    stdout (main enc (reinsert g handle) w).1 = stdout (main enc handle w).1 /\
    (main enc (reinsert g handle) w).2 = (main enc handle w).2 /\
    remote (main enc (reinsert g handle) w).1 = remote (main enc handle w).1 /\
    map fst (network (main enc (reinsert g handle) w).1) =
      map fst (network (main enc handle w).1).
Proof.
  intros g w.
  assert (H : sim same_requests eq
                (main enc (reinsert g handle)) (main enc handle)).
  { apply (sim_main enc _ _ _
             (fun r r1 r2 => if is_insert_request r then True else r1 = r2)).
    - intros r r1 r2 Hr E. rewrite Hr in E. now subst.
    - intros line w1 w2 (E1 & E2 & E3 & E4 & E5).
      unfold same_requests, print.
      destruct (printable enc line); cbn; rewrite ?E1, ?E2, ?E3, ?E4, ?E5;
        repeat split; assumption.
    - intros r w1 w2 (E1 & E2 & E3 & E4 & E5).
      unfold requests_send, reinsert. rewrite E1, E2, E4.
      destruct (handle (environ w2) (files w2) (remote w2) r)
        as [s' [resp |]];
        destruct (is_insert_request r);
        cbn [fst snd environ files stdout network remote];
        (split; [| trivial]);
        unfold same_requests;
        cbn [environ files stdout network remote];
        rewrite !map_app, E5; repeat split; assumption.
    - intros w1 w2 (E1 & E2 & E3 & E4 & E5).
      unfold os_environ_get. cbn [fst snd]. rewrite E1.
      split; [| reflexivity]. repeat split; assumption. }
  specialize (H w w). destruct H as [(_ & _ & E3 & E4 & E5) HR].
  { repeat split. }
  split; [exact E3 |]. split; [| split; [exact E4 | exact E5]].
  destruct (main enc (reinsert g handle) w).2 as [[] | e1],
           (main enc handle w).2 as [[] | e2];
    try contradiction; congruence.
Qed.

End Independence.

(** ** Runs of a fresh process *)

Section Claims.

Context {service : Type}.
Variable enc : stream.
Variable handle : transport service.

Lemma reply_field_id reply v :
  reply_field "id" reply = Ok v -> response_id reply = Some v.
Proof.
  unfold reply_field, reply_json, response_id.
  destruct reply as [resp |]; [| discriminate].
  destruct (body_json resp) as [[] |]; cbn [getitem]; try discriminate.
  destruct (dict_lookup "id" d); [| discriminate].
  now intros [= ->].
Qed.

Lemma after_fetch_prefix out4 events :
  exists rest, (after_fetch enc out4 events).1 = out4 ++ rest.
Proof.
  unfold after_fetch.
  destruct (py_len events) as [n |]; [| exists []; cbn; now rewrite app_nil_r].
  destruct (py_iter events) as [items |]; [| eexists; reflexivity].
  destruct (loop_outcome enc 0 items).2; eexists; reflexivity.
Qed.

Lemma printed_block i d :
  record_printable enc (PDict d) ->
  printed enc (record_block i (PDict d)) = (record_block i (PDict d), Ok tt).
Proof.
  intros H. unfold record_printable, field_names in H.
  repeat match goal with
    | H : Forall _ (_ :: _) |- _ =>
        let H1 := fresh "Hw" in
        let H2 := fresh "Hrest" in
        inversion H as [| ? ? H1 H2]; subst; clear H
    end.
  unfold record_block. cbn [printed].
  fold (record_header i). rewrite printable_header.
  unfold printable. cbn [forallb part_ok].
  rewrite Hw, Hw0, Hw1, Hw2, Hw3.
  destruct (wide enc); reflexivity.
Qed.

Lemma loop_outcome_records l :
  Forall is_record l ->
  Forall (record_printable enc) l ->
  forall i, loop_outcome enc i l = (record_lines i l, Ok tt).
Proof.
  intros Hr Hp. induction Hr as [| x l Hx Hr IH]; intros i.
  - reflexivity.
  - inversion Hp as [| ? ? Hpx Hpl]; subst.
    destruct x; try contradiction.
    cbn [loop_outcome record_lines].
    rewrite (printed_block i d Hpx), (IH Hpl). reflexivity.
Qed.

(* Case analysis on the shape [run_of] gives to a run. *)
Ltac shape E :=
  unfold run_of in E; cbv zeta in E;
  repeat
    (lazymatch type of E with
     | _ = (if ?c then _ else _) => destruct c eqn:?
     | _ = match ?x with _ => _ end => destruct x eqn:?
     end);
  let Hout := fresh "Hout" in
  let Hnet := fresh "Hnet" in
  let Hres := fresh "Hres" in
  injection E as Hout Hnet Hres;
  rewrite ?Hout, ?Hnet, ?Hres; clear Hout Hnet Hres.

Ltac run_cases env fs s0 :=
  let E := fresh "E" in
  destruct (main_run_of enc handle env fs s0) as (rp1 & rp2 & rp3 & rp4 & E);
  unfold run_main;
  destruct (main enc handle (boot env fs s0)) as [w' r];
  cbn [fst snd final stderr exit_status] in *;
  shape E.

Ltac not_in H :=
  vm_compute in H;
  repeat (destruct H as [H | H]; [discriminate H |]);
  first [contradiction | discriminate H].

(* Index a concrete call log. *)
Ltac at_index n Hn :=
  destruct n as [| [| [| [| [| n]]]]]; cbn [nth_error] in Hn;
  try discriminate Hn; inversion Hn; clear Hn.

(* Evaluate what is known about the fields of the replies. *)
Ltac fields :=
  repeat match goal with
    | H : reply_field _ _ = _ |- _ =>
        unfold reply_field, reply_json in H; cbn [getitem] in H
    end.

(* Use what is known about the body of a response. *)
Ltac use_body :=
  repeat match goal with
    | H : context [match body_json ?r with _ => _ end],
      E : body_json ?r = _ |- _ => rewrite E in H; cbn [getitem] in H
    end.

(* Use what is known about a key of a JSON object. *)
Ltac use_lookup :=
  repeat match goal with
    | H : context [match dict_lookup ?k ?d with _ => _ end],
      E : dict_lookup ?k ?d = _ |- _ => rewrite E in H
    end.

Ltac same_result :=
  repeat match goal with
    | H : Raise _ = Raise _ |- _ => injection H as <-
    | H : Ok _ = Ok _ |- _ => injection H as <-
    end.

(* A credential cannot be both empty and not. *)
Ltac key_clash :=
  match goal with
  | E : negb (truthy ?k) = true, K : truthy ?k = true |- _ =>
      rewrite K in E; discriminate E
  end.

(** What a run that got a fetch result with [events] printed and how it
    ended. *)
Lemma fetch_outcome :
  forall env fs s0 req resp d events,
    nth_error (network (main enc handle (boot env fs s0)).1) 3
      = Some (req, Some resp) ->
    body_json resp = Some (PDict d) ->
    dict_lookup "events" d = Some events ->
    exists pid did,
      (stdout (main enc handle (boot env fs s0)).1,
       (main enc handle (boot env fs s0)).2)
      = after_fetch enc (lines_before_fetch pid did) events.
Proof.
  intros env fs s0 req resp d events. run_cases env fs s0.
  all: intros Hn Hb Hd; cbn [nth_error] in Hn; try discriminate Hn.
  all: inversion Hn; clear Hn; subst; fields; use_body.
  all: rewrite Hd in *.
  all: try discriminate.
  match goal with H : Ok _ = Ok _ |- _ => injection H as <- end.
  lazymatch goal with
  | |- context [after_fetch enc (lines_before_fetch ?a ?b) _] => exists a, b
  end.
  now destruct (after_fetch _ _ _).
Qed.

(** C7, as amended: the calls a run makes are an initial part of the
    fixed sequence project, dataset, insert, fetch, all four of them when
    the credential is set and the run completes; the project id sent
    with the dataset creation is the [id] of the project response, and
    the dataset id in the insert and fetch URLs is the [id] of the dataset
    response. *)
Theorem calls_follow_data_dependencies :
  forall env fs s0,
    exists pid did rp1 rp2 rp3 rp4 rest,
      network (main enc handle (boot env fs s0)).1 ++ rest =
        [ (project_request (api_key_of env), rp1);
          (dataset_request (api_key_of env) pid, rp2);
          (insert_request (api_key_of env) did, rp3);
          (fetch_request (api_key_of env) did, rp4) ] /\
      (2 <= length (network (main enc handle (boot env fs s0)).1)
         -> response_id rp1 = Some pid)%nat /\
      (3 <= length (network (main enc handle (boot env fs s0)).1)
         -> response_id rp2 = Some did)%nat /\
      (truthy (api_key_of env) = true ->
       (main enc handle (boot env fs s0)).2 = Ok tt ->
       length (network (main enc handle (boot env fs s0)).1) = 4%nat).
Proof.
  intros env fs s0. run_cases env fs s0.
  all: do 6 eexists; eexists; (split; [cbn [app]; reflexivity |]);
       cbn [length]; repeat split; intros;
       try lia; try discriminate; try reflexivity; try key_clash;
       try (apply reply_field_id; eassumption).
  Unshelve. all: first [exact PNone | exact None].
Qed.

(** C4: a run that reaches the insert step sends exactly one insert
    request, a POST to [/v1/dataset/{id}/insert] (with the id of the dataset
    response) whose body is [{events: [...]}] with exactly the two fixed
    records.  The response is not inspected: when there is one, the line
    printed next is the static confirmation, followed by the banner of step
    4 and the fetch; and with the response to the insert changed in any
    way the run prints the same lines, makes the same calls and ends the
    same way.  Only a call that raises stops the run. *)
Theorem insert_step_sends_fixed_batch :
  forall env fs s0,
    In banner3 (stdout (main enc handle (boot env fs s0)).1) ->
    exists pid did rp1 rp2 rp3 later,
      network (main enc handle (boot env fs s0)).1 =
        (project_request (api_key_of env), rp1)
        :: (dataset_request (api_key_of env) pid, rp2)
        :: (insert_request (api_key_of env) did, rp3)
        :: later /\
      response_id rp2 = Some did /\
      json (insert_request (api_key_of env) did) =
        Some (PDict [("events", PList fixed_records)]) /\
      length fixed_records = 2%nat /\
      length (List.filter is_insert_request
                (map fst (network (main enc handle (boot env fs s0)).1)))
        = 1%nat /\
      (forall resp,
         rp3 = Some resp ->
         (exists rest,
            stdout (main enc handle (boot env fs s0)).1 =
              [ banner1;
                [FLit "   ✓ Project ID: "; FVal pid];
                banner2;
                [FLit "   ✓ Dataset ID: "; FVal did];
                banner3;
                inserted_line;
                banner4 ] ++ rest) /\
         exists rp4, later = [(fetch_request (api_key_of env) did, rp4)]) /\
      (rp3 = None ->
         stdout (main enc handle (boot env fs s0)).1 =
           [ banner1;
             [FLit "   ✓ Project ID: "; FVal pid];
             banner2;
             [FLit "   ✓ Dataset ID: "; FVal did];
             banner3 ] /\
         later = [] /\
         (main enc handle (boot env fs s0)).2 = Raise RequestException) /\
      (forall g : response -> response,
         stdout (main enc (reinsert g handle) (boot env fs s0)).1 =
           stdout (main enc handle (boot env fs s0)).1 /\
         (main enc (reinsert g handle) (boot env fs s0)).2 =
           (main enc handle (boot env fs s0)).2 /\
         remote (main enc (reinsert g handle) (boot env fs s0)).1 =
           remote (main enc handle (boot env fs s0)).1 /\
         map fst (network (main enc (reinsert g handle) (boot env fs s0)).1) =
           map fst (network (main enc handle (boot env fs s0)).1)).
Proof.
  intros env fs s0.
  assert (Hg := fun g =>
            insert_response_is_ignored enc handle g (boot env fs s0)).
  revert Hg. run_cases env fs s0.
  all: intros Hg Hreach;
       try (exfalso; solve [not_in Hreach]); clear Hreach.
  all: do 6 eexists; (split; [reflexivity |]).
  all: split; [apply reply_field_id; eassumption |].
  all: do 3 (split; [reflexivity |]).
  all: split; [| split; [| exact Hg]].
  all: try (intros resp Eq; discriminate Eq).
  all: try (intros Eq; discriminate Eq).
  all: try (intros _; repeat split; reflexivity).
  all: intros resp _; (split; [| eexists; reflexivity]).
  all: try (eexists; reflexivity).
  apply (after_fetch_prefix (lines_before_fetch _ _)).
Qed.

(** C5, as amended: a run that reaches the fetch step sends, as its
    fourth call, a GET to [/v1/dataset/{id}/fetch] with [limit=10]; and when
    the response carries a sequence of records under [events] whose
    displayed fields the output stream can encode, the run prints the
    block of each record exactly once, in the order of the sequence,
    between the count line and the closing text. *)
Theorem fetch_step_prints_each_record :
  forall env fs s0,
    In banner4 (stdout (main enc handle (boot env fs s0)).1) ->
    exists pid did rp1 rp2 rp3 rp4,
      network (main enc handle (boot env fs s0)).1 =
        [ (project_request (api_key_of env), rp1);
          (dataset_request (api_key_of env) pid, rp2);
          (insert_request (api_key_of env) did, rp3);
          (fetch_request (api_key_of env) did, rp4) ] /\
      response_id rp2 = Some did /\
      meth (fetch_request (api_key_of env) did) = GET /\
      url (fetch_request (api_key_of env) did) =
        [FVal base; FLit "/v1/dataset/"; FVal did; FLit "/fetch"] /\
      params (fetch_request (api_key_of env) did) =
        Some (PDict [("limit", PInt 10)]) /\
      (forall resp d events,
         rp4 = Some resp ->
         body_json resp = Some (PDict d) ->
         dict_lookup "events" d = Some (PList events) ->
         Forall is_record events ->
         Forall (record_printable enc) events ->
         stdout (main enc handle (boot env fs s0)).1 =
           lines_before_fetch pid did
           ++ fetched_line (length events)
           :: record_lines 0 events
           ++ closing_lines /\
         (main enc handle (boot env fs s0)).2 = Ok tt).
Proof.
  intros env fs s0. run_cases env fs s0.
  all: intros Hreach;
       try (exfalso; solve [not_in Hreach]); clear Hreach.
  all: do 6 eexists; (split; [reflexivity |]).
  all: split; [apply reply_field_id; eassumption |].
  all: do 3 (split; [reflexivity |]).
  all: intros resp d events -> Hb Hd Hrec Hpr; fields; use_body;
       rewrite Hd in *; try discriminate.
  match goal with H : Ok _ = Ok _ |- _ => injection H as <- end.
  unfold after_fetch. cbn [py_len py_iter].
  rewrite (loop_outcome_records events Hrec Hpr 0). cbn [fst snd].
  split; reflexivity.
Qed.

(** C6, as amended: the response shapes are not validated, so a project
    or dataset response without [id], and a fetch response without
    [events], make the indexing fail when it is evaluated, with an uncaught
    [KeyError] and no further call; the fields of a fetched record are
    read with [.get], and a record that lacks some of them is displayed,
    with [None] in their place, without any failure (given that the output
    stream can encode the fields the records do have). *)
Theorem missing_field_fails_only_on_indexing :
  forall env fs s0 i req resp d,
    nth_error (network (main enc handle (boot env fs s0)).1) i
      = Some (req, Some resp) ->
    body_json resp = Some (PDict d) ->
    ((i = 0 \/ i = 1)%nat ->
     dict_lookup "id" d = None ->
     (main enc handle (boot env fs s0)).2 = Raise (KeyError "id") /\
     length (network (main enc handle (boot env fs s0)).1) = S i) /\
    (i = 3%nat ->
     dict_lookup "events" d = None ->
     (main enc handle (boot env fs s0)).2 = Raise (KeyError "events")) /\
    (i = 3%nat ->
     forall events,
       dict_lookup "events" d = Some (PList events) ->
       Forall is_record events ->
       Forall (record_printable enc) events ->
       (main enc handle (boot env fs s0)).2 = Ok tt /\
       exists before,
         stdout (main enc handle (boot env fs s0)).1 =
           before ++ record_lines 0 events ++ closing_lines).
Proof.
  intros env fs s0 i req resp d. run_cases env fs s0.
  all: intros Hn Hb; at_index i Hn; subst; fields; use_body.
  all: split; [| split].
  all: try (intros [Eq | Eq]; discriminate Eq).
  all: try (intros Eq; discriminate Eq).
  all: try solve [intros _ Hd; use_lookup; try discriminate; same_result;
                  repeat split].
  all: intros _ events Hd Hrec Hpr; use_lookup; try discriminate;
       same_result.
  unfold after_fetch. cbn [py_len py_iter].
  rewrite (loop_outcome_records events Hrec Hpr 0). cbn [fst snd].
  split; [reflexivity |].
  lazymatch goal with
  | |- exists before, ?pre ++ ?c :: _ = _ => exists (pre ++ [c])
  end.
  now rewrite <- app_assoc.
Qed.

(** C1: for every fetched record in which both [id] and [_xact_id] are
    present, the origin reference is exactly the composite value with
    object type "dataset", the id returned by the dataset-creation call of
    the run, and the record's [id], [created] and [_xact_id]. *)
Theorem origin_of_fetched_record :
  forall env fs s0 record,
    In record
       (fetched_records (network (main enc handle (boot env fs s0)).1)) ->
    Origin.has_field record "id" = true ->
    Origin.has_field record "_xact_id" = true ->
    exists dataset_id,
      created_dataset_id (network (main enc handle (boot env fs s0)).1)
        = Some dataset_id /\
      Origin.origin_reference dataset_id record =
        Some (PDict [ ("object_type", PStr "dataset");
                      ("object_id", dataset_id);
                      ("id", shown record "id");
                      ("created", shown record "created");
                      ("_xact_id", shown record "_xact_id") ]).
Proof.
  intros env fs s0 record. run_cases env fs s0.
  all: intros Hin Hid Hx; cbn [fetched_records] in Hin; try contradiction.
  all: eexists; (split; [cbn [created_dataset_id];
                         apply reply_field_id; eassumption |]).
  all: unfold Origin.origin_reference; rewrite Hid, Hx; reflexivity.
Qed.

(** C2: for every fetched record in which [id] or [_xact_id] is missing, no
    origin reference is produced, whatever the dataset. *)
Theorem origin_absent_when_field_missing :
  forall env fs s0 (d : list (string * pyval)) (dataset_id : pyval),
    In (PDict d)
       (fetched_records (network (main enc handle (boot env fs s0)).1)) ->
    dict_lookup "id" d = None \/ dict_lookup "_xact_id" d = None ->
    Origin.origin_reference dataset_id (PDict d) = None.
Proof.
  intros env fs s0 d dataset_id _ H.
  unfold Origin.origin_reference, Origin.has_field, shown.
  destruct H as [-> | ->]; [reflexivity |].
  now rewrite andb_false_r.
Qed.

(** X1: every call of a run carries the bearer header built from the
    credential of the environment and goes to the fixed base host; a call
    is made only with a non-empty credential. *)
Theorem every_call_is_authenticated :
  forall env fs s0 call,
    In call (network (main enc handle (boot env fs s0)).1) ->
    headers call.1 =
      [("Authorization", [FLit "Bearer "; FVal (api_key_of env)])] /\
    (exists path,
       url call.1 = FVal (PStr "https://api.braintrust.dev") :: path) /\
    truthy (api_key_of env) = true.
Proof.
  intros env fs s0 call. run_cases env fs s0.
  all: intros Hin; cbn [In] in Hin.
  all: repeat (destruct Hin as [Hin | Hin]; [subst call |]);
       try contradiction.
  all: (split; [reflexivity |]); split;
       [eexists; reflexivity
       | match goal with
         | E : negb _ = false |- _ =>
             apply negb_false_iff in E; exact E
         end].
Qed.

(** X2: a call that raises (no response) ends the run: it is the last
    call made, the exception is not caught, and the process exits with
    status 1. *)
Theorem raising_call_ends_run :
  forall env fs s0 n req,
    nth_error (network (main enc handle (boot env fs s0)).1) n
      = Some (req, None) ->
    (main enc handle (boot env fs s0)).2 = Raise RequestException /\
    length (network (main enc handle (boot env fs s0)).1) = S n /\
    exit_status (run_main enc handle (boot env fs s0)) = 1.
Proof.
  intros env fs s0 n req. run_cases env fs s0.
  all: intros Hn; at_index n Hn; subst; fields.
  all: try discriminate.
  all: repeat match goal with
         | H : Raise _ = Raise _ |- _ => injection H as <-
         end.
  all: repeat split.
Qed.

(** X3: a response whose body is not JSON makes [resp.json()] fail for
    the project, dataset and fetch calls (the run stops there with
    [JSONDecodeError]), but not for the insert call, whose response is
    never decoded: the run goes on to the fetch. *)
Theorem undecodable_body_stops_all_but_insert :
  forall env fs s0 n req resp,
    nth_error (network (main enc handle (boot env fs s0)).1) n
      = Some (req, Some resp) ->
    body_json resp = None ->
    (n <> 2%nat ->
     (main enc handle (boot env fs s0)).2 = Raise JSONDecodeError /\
     length (network (main enc handle (boot env fs s0)).1) = S n) /\
    (n = 2%nat ->
     length (network (main enc handle (boot env fs s0)).1) = 4%nat).
Proof.
  intros env fs s0 n req resp. run_cases env fs s0.
  all: intros Hn Hb; at_index n Hn; subst; fields.
  all: use_body.
  all: try discriminate.
  all: repeat match goal with
         | H : Raise _ = Raise _ |- _ => injection H as <-
         end.
  all: split; [intros Hne; try (now contradiction Hne) | intros Heq;
               try discriminate Heq].
  all: repeat split.
Qed.

(** X4: a project, dataset or fetch response whose JSON is not an object
    makes the indexing fail with [TypeError]; the run stops at that call. *)
Theorem non_object_json_stops_run :
  forall env fs s0 n req resp v,
    nth_error (network (main enc handle (boot env fs s0)).1) n
      = Some (req, Some resp) ->
    body_json resp = Some v ->
    (forall d, v <> PDict d) ->
    n <> 2%nat ->
    (main enc handle (boot env fs s0)).2 = Raise TypeError /\
    length (network (main enc handle (boot env fs s0)).1) = S n.
Proof.
  intros env fs s0 n req resp v. run_cases env fs s0.
  all: intros Hn Hb Hv Hne; at_index n Hn; subst;
       try (now contradiction Hne); fields.
  all: use_body.
  all: destruct v; try (exfalso; eapply Hv; reflexivity);
       cbn [getitem] in *.
  all: try discriminate.
  all: repeat match goal with
         | H : Raise _ = Raise _ |- _ => injection H as <-
         end.
  all: repeat split.
Qed.

(** X5: with a credential, a run that completes has made the four
    calls, each of them answered, has printed the closing text last, and
    exits with status 0. *)
Theorem completed_run_is_whole :
  forall env fs s0,
    truthy (api_key_of env) = true ->
    (main enc handle (boot env fs s0)).2 = Ok tt ->
    length (network (main enc handle (boot env fs s0)).1) = 4%nat /\
    Forall (fun call => call.2 <> None)
           (network (main enc handle (boot env fs s0)).1) /\
    (exists before,
       stdout (main enc handle (boot env fs s0)).1 = before ++ closing_lines) /\
    exit_status (run_main enc handle (boot env fs s0)) = 0.
Proof.
  intros env fs s0. run_cases env fs s0.
  all: intros Hkey Hok; try discriminate Hok.
  - rewrite Hkey in *. discriminate.
  - revert Hok. unfold after_fetch.
    destruct (py_len _) as [n |]; [| discriminate].
    destruct (py_iter _) as [items |]; [| discriminate].
    destruct (loop_outcome enc 0 items).2 as [[] |]; [| discriminate].
    intros _. cbn [fst snd]. fields.
    split; [reflexivity |]. split; [| split; [| reflexivity]].
    + repeat constructor; cbn [snd]; intros Hc; try discriminate Hc;
        subst; cbn [getitem] in *; discriminate.
    + lazymatch goal with
      | |- exists before, ?pre ++ ?c :: ?l ++ closing_lines = _ =>
          exists (pre ++ c :: l)
      end.
      now rewrite <- app_assoc.
Qed.

(** X12: with a non-empty credential, on an output stream that has the
    characters of the banners, the run does not stop at the guard: it
    announces step 1 first and its first call is the POST to [/v1/project]
    with the fixed project and organisation names. *)
Theorem credential_lets_run_start :
  forall env fs s0,
    truthy (api_key_of env) = true ->
    wide enc = true ->
    exists out calls reply,
      stdout (main enc handle (boot env fs s0)).1 = banner1 :: out /\
      network (main enc handle (boot env fs s0)).1 =
        ({| meth := POST;
            url := [FVal base; FLit "/v1/project"];
            headers := bearer (api_key_of env);
            json := Some (PDict [("name", PStr "python-origin-demo");
                                 ("org_name", PStr "Braintrust")]);
            params := None |}, reply) :: calls.
Proof.
  intros env fs s0. run_cases env fs s0.
  all: intros Hkey Hwide.
  all: try (rewrite Hkey in *; discriminate).
  all: try (rewrite Hwide in *; discriminate).
  all: try (do 3 eexists; split; reflexivity).
  lazymatch goal with
  | |- context [after_fetch enc ?o ?e] =>
      destruct (after_fetch_prefix o e) as [rest ->]
  end.
  do 3 eexists; split; reflexivity.
Qed.

(** X14: with a non-empty credential, on an output stream that lacks the
    characters of the banners (ASCII or Latin-1, say), the run ends at its
    first [print]: nothing is written, no call is made, and the uncaught
    [UnicodeEncodeError] gives exit status 1. *)
Theorem narrow_stream_stops_at_first_banner :
  forall env fs s0,
    truthy (api_key_of env) = true ->
    wide enc = false ->
    stdout (main enc handle (boot env fs s0)).1 = [] /\
    network (main enc handle (boot env fs s0)).1 = [] /\
    (main enc handle (boot env fs s0)).2 = Raise UnicodeEncodeError /\
    exit_status (run_main enc handle (boot env fs s0)) = 1.
Proof.
  intros env fs s0. run_cases env fs s0.
  all: intros Hkey Hwide.
  all: try (rewrite Hkey in *; discriminate).
  all: try (rewrite Hwide in *; discriminate).
  repeat split.
Qed.

Lemma loop_stops_at_non_record pre x post :
  Forall is_record pre ->
  Forall (record_printable enc) pre ->
  ~ is_record x ->
  forall i,
    loop_outcome enc i (pre ++ x :: post) =
      (record_lines i pre ++ [record_header (i + Z.of_nat (length pre))],
       Raise AttributeError).
Proof.
  intros Hpre Hpr Hx. induction Hpre as [| y pre Hy Hpre IH]; intros i.
  - cbn [app length record_lines Z.of_nat]. rewrite Z.add_0_r.
    destruct x; try (exfalso; apply Hx; exact I); reflexivity.
  - inversion Hpr as [| ? ? Hpy Hpl]; subst.
    destruct y; try contradiction.
    cbn [app loop_outcome record_lines length].
    rewrite (printed_block i d Hpy), (IH Hpl (i + 1)). cbn [fst snd].
    replace (i + 1 + Z.of_nat (length pre))
      with (i + Z.of_nat (S (length pre))) by lia.
    now rewrite <- app_assoc.
Qed.

(** X6: when an item of [events] is not an object, and the output stream
    can encode the displayed fields of the records before it, the run
    prints the count line, the blocks of those records and the header of
    that item, then fails with an uncaught [AttributeError]; the later
    items and the closing text are not printed. *)
Theorem non_record_item_stops_listing :
  forall env fs s0 req resp d pre x post,
    nth_error (network (main enc handle (boot env fs s0)).1) 3
      = Some (req, Some resp) ->
    body_json resp = Some (PDict d) ->
    dict_lookup "events" d = Some (PList (pre ++ x :: post)) ->
    Forall is_record pre ->
    Forall (record_printable enc) pre ->
    ~ is_record x ->
    (main enc handle (boot env fs s0)).2 = Raise AttributeError /\
    exists pid did,
      stdout (main enc handle (boot env fs s0)).1 =
        lines_before_fetch pid did
        ++ fetched_line (length (pre ++ x :: post))
        :: record_lines 0 pre
        ++ [record_header (Z.of_nat (length pre))].
Proof.
  intros env fs s0 req resp d pre x post Hn Hb Hd Hpre Hpr Hx.
  destruct (fetch_outcome env fs s0 req resp d _ Hn Hb Hd)
    as (pid & did & E).
  unfold after_fetch in E. cbn [py_len py_iter] in E.
  rewrite (loop_stops_at_non_record pre x post Hpre Hpr Hx 0) in E.
  cbn [fst snd] in E. injection E as -> ->.
  split; [reflexivity |]. exists pid, did. reflexivity.
Qed.

(** X7: an empty [events] (an empty list, and also an empty object or
    string) is not an error: the run reports 0 records, prints the closing
    text and completes. *)
Theorem empty_events_complete :
  forall env fs s0 req resp d events,
    nth_error (network (main enc handle (boot env fs s0)).1) 3
      = Some (req, Some resp) ->
    body_json resp = Some (PDict d) ->
    dict_lookup "events" d = Some events ->
    events = PList [] \/ events = PDict [] \/ events = PStr EmptyString ->
    (main enc handle (boot env fs s0)).2 = Ok tt /\
    exists pid did,
      stdout (main enc handle (boot env fs s0)).1 =
        lines_before_fetch pid did ++ fetched_line 0 :: closing_lines.
Proof.
  intros env fs s0 req resp d events Hn Hb Hd Hev.
  destruct (fetch_outcome env fs s0 req resp d _ Hn Hb Hd)
    as (pid & did & E).
  destruct Hev as [-> | [-> | ->]]; injection E as -> ->;
    (split; [reflexivity |]); exists pid, did; reflexivity.
Qed.

(** X8: when [events] has no length (null, a boolean, a number), [len]
    fails before the count line is printed and the run ends there with
    that exception. *)
Theorem unsized_events_fail_before_count :
  forall env fs s0 req resp d events e,
    nth_error (network (main enc handle (boot env fs s0)).1) 3
      = Some (req, Some resp) ->
    body_json resp = Some (PDict d) ->
    dict_lookup "events" d = Some events ->
    py_len events = Raise e ->
    (main enc handle (boot env fs s0)).2 = Raise e /\
    exists pid did,
      stdout (main enc handle (boot env fs s0)).1 = lines_before_fetch pid did.
Proof.
  intros env fs s0 req resp d events e Hn Hb Hd He.
  destruct (fetch_outcome env fs s0 req resp d _ Hn Hb Hd)
    as (pid & did & E).
  unfold after_fetch in E. rewrite He in E. injection E as -> ->.
  split; [reflexivity |]. exists pid, did. reflexivity.
Qed.

(** X13: when [events] is a non-empty object instead of a list, the loop
    goes through its keys: the count line gives the number of keys, the
    header of the first item is printed and [.get] on the key fails with
    an uncaught [AttributeError]. *)
Theorem object_events_iterate_keys :
  forall env fs s0 req resp d k v rest,
    nth_error (network (main enc handle (boot env fs s0)).1) 3
      = Some (req, Some resp) ->
    body_json resp = Some (PDict d) ->
    dict_lookup "events" d = Some (PDict ((k, v) :: rest)) ->
    (main enc handle (boot env fs s0)).2 = Raise AttributeError /\
    exists pid did,
      stdout (main enc handle (boot env fs s0)).1 =
        lines_before_fetch pid did
        ++ [fetched_line (S (length rest)); record_header 0].
Proof.
  intros env fs s0 req resp d k v rest Hn Hb Hd.
  destruct (fetch_outcome env fs s0 req resp d _ Hn Hb Hd)
    as (pid & did & E).
  injection E as -> ->.
  split; [reflexivity |]. exists pid, did. reflexivity.
Qed.
End Claims.
(** ** The properties on concrete runs *)

(** The runs below write to a standard output in UTF-8. *)

Lemma empty_credential_like_absent_witness :
  stdout (main utf8_stdout unreachable (boot empty_key_env ∅ tt)).1
    = [error_line] /\
  network (main utf8_stdout unreachable (boot empty_key_env ∅ tt)).1 = [] /\
  remote (main utf8_stdout unreachable (boot empty_key_env ∅ tt)).1 = tt /\
  (main utf8_stdout unreachable (boot empty_key_env ∅ tt)).2 = Ok tt.
Proof.
  apply (empty_credential_like_absent utf8_stdout unreachable
           (boot empty_key_env ∅ tt)).
  right. reflexivity.
Defined.

Lemma missing_credential_exits_zero_witness :
  exit_status (run_main utf8_stdout unreachable (boot ∅ ∅ tt)) = 0 /\
  stderr (run_main utf8_stdout unreachable (boot ∅ ∅ tt)) = [].
Proof.
  destruct (missing_credential_exits_zero utf8_stdout unreachable
              (boot ∅ ∅ tt))
    as (_ & Herr & Hexit & _).
  - reflexivity.
  - split; [exact Hexit | exact Herr].
Defined.

Lemma calls_follow_data_dependencies_witness :
  exists pid did rp1 rp2 rp3 rp4 rest,
    network (main utf8_stdout (demo_service demo_events)
                  (boot demo_env ∅ 0%nat)).1
      ++ rest =
      [ (project_request (api_key_of demo_env), rp1);
        (dataset_request (api_key_of demo_env) pid, rp2);
        (insert_request (api_key_of demo_env) did, rp3);
        (fetch_request (api_key_of demo_env) did, rp4) ].
Proof.
  destruct (calls_follow_data_dependencies utf8_stdout
              (demo_service demo_events) demo_env ∅ 0%nat)
    as (pid & did & rp1 & rp2 & rp3 & rp4 & rest & Hcalls & _).
  exists pid, did, rp1, rp2, rp3, rp4, rest. exact Hcalls.
Defined.

(** C7 as stated fails: a run without the credential makes no call at
    all. *)
Lemma no_call_without_credential :
  network (main utf8_stdout unreachable (boot ∅ ∅ tt)).1 = [] /\
  length (network (main utf8_stdout unreachable (boot ∅ ∅ tt)).1) <> 4%nat.
Proof.
  split; [reflexivity | discriminate].
Qed.

Lemma insert_step_sends_fixed_batch_witness :
  In banner3
     (stdout (main utf8_stdout (demo_service demo_events)
                   (boot demo_env ∅ 0%nat)).1) /\
  length (List.filter is_insert_request
            (map fst (network (main utf8_stdout (demo_service demo_events)
                                    (boot demo_env ∅ 0%nat)).1)))
    = 1%nat /\
  stdout (main utf8_stdout
               (reinsert (fun _ => {| status_code := 400;
                                      body_json := Some (PStr "rejected") |})
                         (demo_service demo_events))
               (boot demo_env ∅ 0%nat)).1
    = stdout (main utf8_stdout (demo_service demo_events)
                   (boot demo_env ∅ 0%nat)).1.
Proof.
  assert (Hreach : In banner3
            (stdout (main utf8_stdout (demo_service demo_events)
                          (boot demo_env ∅ 0%nat)).1)).
  { vm_compute. do 4 right. left. reflexivity. }
  split; [exact Hreach |].
  destruct (insert_step_sends_fixed_batch utf8_stdout
              (demo_service demo_events) demo_env ∅ 0%nat Hreach)
    as (pid & did & rp1 & rp2 & rp3 & later
        & _ & _ & _ & _ & Hone & _ & _ & Hany).
  split; [exact Hone |].
  exact (proj1 (Hany _)).
Defined.

Lemma fetch_step_prints_each_record_witness :
  In banner4
     (stdout (main utf8_stdout (demo_service demo_events)
                   (boot demo_env ∅ 0%nat)).1) /\
  exists did rp4,
    nth_error (network (main utf8_stdout (demo_service demo_events)
                             (boot demo_env ∅ 0%nat)).1) 3
      = Some (fetch_request (api_key_of demo_env) did, rp4).
Proof.
  assert (Hreach : In banner4
            (stdout (main utf8_stdout (demo_service demo_events)
                          (boot demo_env ∅ 0%nat)).1)).
  { vm_compute. do 6 right. left. reflexivity. }
  split; [exact Hreach |].
  destruct (fetch_step_prints_each_record utf8_stdout
              (demo_service demo_events) demo_env ∅ 0%nat Hreach)
    as (pid & did & rp1 & rp2 & rp3 & rp4 & Hcalls & _).
  exists did, rp4. rewrite Hcalls. reflexivity.
Defined.

(** C5 as stated fails: the fetch returns one record, whose [id] is a
    string with a surrogate on its own (the JSON text ["\ud800"] decodes to
    one).  The run prints the count line and the header of the record, then
    [print] of the id line raises [UnicodeEncodeError]: the record is not
    listed and the run ends there. *)
Lemma record_with_surrogate_id_is_not_printed :
  In banner4
     (stdout (main utf8_stdout (demo_service surrogate_events)
                   (boot demo_env ∅ 0%nat)).1) /\
  fetched_records
    (network (main utf8_stdout (demo_service surrogate_events)
                   (boot demo_env ∅ 0%nat)).1)
    = [PDict [("id", PStr lone_surrogate); ("_xact_id", PStr "1000")]] /\
  stdout (main utf8_stdout (demo_service surrogate_events)
               (boot demo_env ∅ 0%nat)).1
    = lines_before_fetch (PStr "p-1") (PStr "d-1")
      ++ [fetched_line 1; record_header 0] /\
  ~ In [FLit "     - id: "; FVal (PStr lone_surrogate)]
       (stdout (main utf8_stdout (demo_service surrogate_events)
                     (boot demo_env ∅ 0%nat)).1) /\
  (main utf8_stdout (demo_service surrogate_events)
        (boot demo_env ∅ 0%nat)).2 = Raise UnicodeEncodeError.
Proof.
  split; [vm_compute; do 6 right; left; reflexivity |].
  split; [vm_compute; reflexivity |].
  split; [vm_compute; reflexivity |].
  split; [| vm_compute; reflexivity].
  vm_compute. intros H.
  repeat (destruct H as [H | H]; [discriminate H |]). exact H.
Qed.

Lemma missing_field_fails_only_on_indexing_witness :
  (main utf8_stdout (demo_service bare_events) (boot demo_env ∅ 0%nat)).2
    = Ok tt.
Proof.
  destruct (missing_field_fails_only_on_indexing utf8_stdout
              (demo_service bare_events) demo_env ∅ 0%nat 3%nat
              (fetch_request (api_key_of demo_env) (PStr "d-1"))
              {| status_code := 200;
                 body_json := Some (PDict [("events", bare_events)]) |}
              [("events", bare_events)])
    as (_ & _ & Hget).
  - reflexivity.
  - reflexivity.
  - destruct (Hget eq_refl [PDict []]) as [Hok _].
    + reflexivity.
    + repeat constructor.
    + repeat constructor.
    + exact Hok.
Defined.

(** C6 as stated fails: the only record of the fetch result has no [id]
    (nor any other field), yet the run reads it, prints [None] and
    completes. *)
Lemma record_without_id_does_not_fail :
  dict_lookup "id" [] = None /\
  (main utf8_stdout (demo_service bare_events) (boot demo_env ∅ 0%nat)).2
    = Ok tt /\
  nth_error
    (stdout (main utf8_stdout (demo_service bare_events)
                  (boot demo_env ∅ 0%nat)).1) 9
    = Some [FLit "     - id: "; FVal PNone].
Proof.
  repeat split; vm_compute; reflexivity.
Qed.

Lemma origin_of_fetched_record_witness :
  exists dataset_id,
    created_dataset_id
      (network (main utf8_stdout (demo_service demo_events)
                     (boot demo_env ∅ 0%nat)).1) = Some dataset_id /\
    Origin.origin_reference dataset_id
      (PDict [("id", PStr "r-2"); ("_xact_id", PStr "1000");
              ("input", PDict [("text", PStr "braintrust is awesome")]);
              ("expected",
               PDict [("response", PStr "Braintrust Is Awesome")])])
    = Some (PDict [ ("object_type", PStr "dataset");
                    ("object_id", dataset_id);
                    ("id", PStr "r-2");
                    ("created", PNone);
                    ("_xact_id", PStr "1000") ]).
Proof.
  apply (origin_of_fetched_record utf8_stdout (demo_service demo_events)
           demo_env ∅ 0%nat
           (PDict [("id", PStr "r-2"); ("_xact_id", PStr "1000");
                   ("input", PDict [("text", PStr "braintrust is awesome")]);
                   ("expected",
                    PDict [("response", PStr "Braintrust Is Awesome")])])).
  - vm_compute. right. left. reflexivity.
  - reflexivity.
  - reflexivity.
Defined.

Lemma origin_absent_when_field_missing_witness :
  Origin.origin_reference (PStr "d-1") (PDict []) = None.
Proof.
  apply (origin_absent_when_field_missing utf8_stdout
           (demo_service bare_events) demo_env ∅ 0%nat [] (PStr "d-1")).
  - vm_compute. left. reflexivity.
  - left. reflexivity.
Defined.

(** ** The further properties on concrete runs *)

Lemma every_call_is_authenticated_witness :
  truthy (api_key_of demo_env) = true.
Proof.
  destruct (every_call_is_authenticated utf8_stdout
              (demo_service demo_events) demo_env ∅ 0%nat
              (project_request (api_key_of demo_env),
               Some {| status_code := 200;
                       body_json := Some (PDict [("id", PStr "p-1")]) |}))
    as (_ & _ & Hkey).
  - vm_compute. left. reflexivity.
  - exact Hkey.
Defined.

Lemma raising_call_ends_run_witness :
  exit_status (run_main utf8_stdout unreachable (boot demo_env ∅ tt)) = 1.
Proof.
  destruct (raising_call_ends_run utf8_stdout unreachable demo_env ∅ tt
              0%nat (project_request (api_key_of demo_env)))
    as (_ & _ & Hexit).
  - reflexivity.
  - exact Hexit.
Defined.

Lemma undecodable_body_stops_all_but_insert_witness :
  (main utf8_stdout broken_fetch_service (boot demo_env ∅ 0%nat)).2
    = Raise JSONDecodeError.
Proof.
  destruct (undecodable_body_stops_all_but_insert utf8_stdout
              broken_fetch_service demo_env ∅ 0%nat 3%nat
              (fetch_request (api_key_of demo_env) (PStr "d-1"))
              {| status_code := 502; body_json := None |})
    as [Hstop _].
  - reflexivity.
  - reflexivity.
  - destruct Hstop as [Hres _]; [discriminate | exact Hres].
Defined.

Lemma non_object_json_stops_run_witness :
  (main utf8_stdout array_service (boot demo_env ∅ tt)).2 = Raise TypeError.
Proof.
  destruct (non_object_json_stops_run utf8_stdout array_service
              demo_env ∅ tt 0%nat
              (project_request (api_key_of demo_env))
              {| status_code := 200; body_json := Some (PList []) |}
              (PList []))
    as [Hres _].
  - reflexivity.
  - reflexivity.
  - discriminate.
  - discriminate.
  - exact Hres.
Defined.

Lemma completed_run_is_whole_witness :
  length (network (main utf8_stdout (demo_service demo_events)
                        (boot demo_env ∅ 0%nat)).1) = 4%nat.
Proof.
  destruct (completed_run_is_whole utf8_stdout
              (demo_service demo_events) demo_env ∅ 0%nat)
    as (Hlen & _).
  - reflexivity.
  - vm_compute. reflexivity.
  - exact Hlen.
Defined.

Lemma credential_lets_run_start_witness :
  exists out,
    stdout (main utf8_stdout unreachable (boot demo_env ∅ tt)).1
      = banner1 :: out.
Proof.
  destruct (credential_lets_run_start utf8_stdout unreachable demo_env ∅ tt)
    as (out & calls & reply & Hout & _).
  - reflexivity.
  - reflexivity.
  - exists out. exact Hout.
Defined.

Lemma narrow_stream_stops_at_first_banner_witness :
  stdout (main (ascii_stdout (fun _ => false)) unreachable
               (boot demo_env ∅ tt)).1 = [] /\
  exit_status (run_main (ascii_stdout (fun _ => false)) unreachable
                        (boot demo_env ∅ tt)) = 1.
Proof.
  destruct (narrow_stream_stops_at_first_banner
              (ascii_stdout (fun _ => false)) unreachable demo_env ∅ tt)
    as (Hout & _ & _ & Hexit).
  - reflexivity.
  - reflexivity.
  - split; [exact Hout | exact Hexit].
Defined.

Lemma non_record_item_stops_listing_witness :
  (main utf8_stdout (demo_service mixed_events) (boot demo_env ∅ 0%nat)).2
    = Raise AttributeError.
Proof.
  destruct (non_record_item_stops_listing utf8_stdout
              (demo_service mixed_events) demo_env ∅ 0%nat
              (fetch_request (api_key_of demo_env) (PStr "d-1"))
              {| status_code := 200;
                 body_json := Some (PDict [("events", mixed_events)]) |}
              [("events", mixed_events)]
              [PDict [("id", PStr "r-1")]]
              (PStr "oops")
              [PDict [("id", PStr "r-3")]])
    as [Hres _].
  - reflexivity.
  - reflexivity.
  - reflexivity.
  - repeat constructor.
  - repeat constructor.
  - intros [].
  - exact Hres.
Defined.

Lemma empty_events_complete_witness :
  (main utf8_stdout (demo_service (PList [])) (boot demo_env ∅ 0%nat)).2
    = Ok tt.
Proof.
  destruct (empty_events_complete utf8_stdout
              (demo_service (PList [])) demo_env ∅ 0%nat
              (fetch_request (api_key_of demo_env) (PStr "d-1"))
              {| status_code := 200;
                 body_json := Some (PDict [("events", PList [])]) |}
              [("events", PList [])]
              (PList []))
    as [Hres _].
  - reflexivity.
  - reflexivity.
  - reflexivity.
  - left. reflexivity.
  - exact Hres.
Defined.

Lemma unsized_events_fail_before_count_witness :
  (main utf8_stdout (demo_service PNone) (boot demo_env ∅ 0%nat)).2
    = Raise TypeError.
Proof.
  destruct (unsized_events_fail_before_count utf8_stdout
              (demo_service PNone) demo_env ∅ 0%nat
              (fetch_request (api_key_of demo_env) (PStr "d-1"))
              {| status_code := 200;
                 body_json := Some (PDict [("events", PNone)]) |}
              [("events", PNone)]
              PNone TypeError)
    as [Hres _].
  - reflexivity.
  - reflexivity.
  - reflexivity.
  - reflexivity.
  - exact Hres.
Defined.

Lemma object_events_iterate_keys_witness :
  (main utf8_stdout (demo_service (PDict [("total", PInt 2)]))
        (boot demo_env ∅ 0%nat)).2 = Raise AttributeError.
Proof.
  destruct (object_events_iterate_keys utf8_stdout
              (demo_service (PDict [("total", PInt 2)])) demo_env ∅ 0%nat
              (fetch_request (api_key_of demo_env) (PStr "d-1"))
              {| status_code := 200;
                 body_json :=
                   Some (PDict [("events", PDict [("total", PInt 2)])]) |}
              [("events", PDict [("total", PInt 2)])]
              "total" (PInt 2) [])
    as [Hres _].
  - reflexivity.
  - reflexivity.
  - reflexivity.
  - exact Hres.
Defined.
